(** * beautyclass: entitlement resolution and signed playback tokens

    A shallow embedding of
    - [src/app/api/video/token/route.ts] (the [POST] handler that mints a
      Cloudflare Stream token and its helper [getPrivateKey]), and
    - the [VideoPlayerWithAuth] component ([checkAuth], [handlePayment]).

    Asynchronous calls to collaborators (Supabase auth, the [profiles]
    table, PortOne, the JWT signer) are answered by oracles carried in a
    world record; every call is recorded in a trace, so that the order and
    the number of the calls can be stated.  An awaited promise either
    resolves or rejects; a rejection is a JavaScript exception. *)

From Stdlib Require Import String Ascii List NArith ZArith Bool Lia.
From Stdlib Require Import DecimalString DecimalN.
From Stdlib Require Import Floats.PrimFloat.
Import ListNotations.
Open Scope string_scope.

(** ** JavaScript values and strings *)

(** A parsed JSON document, as [request.json()] resolves it.  The members
    of an object are kept as an association list. *)
#[warnings="-register-all"]
Inductive json : Type :=
| JNull
| JBool (b : bool)
| JNum (f : float)
| JStr (s : string)
| JArr (items : list json)
| JObj (members : list (string * json)).

(** A possibly [undefined] JavaScript value: the result of a property read. *)
Definition js_value := option json.

(** JavaScript truthiness of a string: only the empty string is falsy. *)
Definition truthy_string (s : string) : bool :=
  match s with
  | EmptyString => false
  | String _ _ => true
  end.

(** Truthiness of a nullable string ([string | null | undefined]). *)
Definition truthy_ostring (s : option string) : bool :=
  match s with
  | None => false
  | Some s => truthy_string s
  end.

(** Truthiness of a nullable boolean column. *)
Definition truthy_obool (b : option bool) : bool :=
  match b with
  | Some true => true
  | _ => false
  end.

(** JavaScript truthiness of a JSON value. *)
Definition truthy_json (v : json) : bool :=
  match v with
  | JNull => false
  | JBool b => b
  | JNum f => negb (PrimFloat.is_zero f || PrimFloat.is_nan f)
  | JStr s => truthy_string s
  | JArr _ => true
  | JObj _ => true
  end.

(** [String.prototype.startsWith]. *)
Definition startsWith (s pat : string) : bool := String.prefix pat s.

Fixpoint string_drop (n : nat) (s : string) : string :=
  match n, s with
  | O, _ => s
  | S n', String _ s' => string_drop n' s'
  | S _, EmptyString => EmptyString
  end.

(** [String.prototype.replace] with a string pattern: the first occurrence
    of [pat] is replaced, the rest of the string is kept. *)
Fixpoint replace (s pat rep : string) : string :=
  if String.prefix pat s then rep ++ string_drop (String.length pat) s
  else match s with
       | EmptyString => EmptyString
       | String c s' => String c (replace s' pat rep)
       end.

(** Decimal rendering of a non-negative integer in a template literal. *)
Definition string_of_N (n : N) : string :=
  NilEmpty.string_of_uint (N.to_uint n).

(** Rendering of a nullable string in a template literal. *)
Definition template_ostring (s : option string) : string :=
  match s with
  | None => "undefined"
  | Some s => s
  end.

(** Lookup of an own property among the members of an object. *)
Fixpoint assoc (key : string) (members : list (string * json)) : js_value :=
  match members with
  | [] => None
  | (k, v) :: rest => if String.eqb k key then Some v else assoc key rest
  end.

(** Property read [v.key], as the destructuring [const { key } = v] does
    it.  Reading from [null] throws a TypeError ([None]); primitives and
    arrays have no property of that name ([Some None], i.e. [undefined]). *)
Definition get_property (v : json) (key : string) : option js_value :=
  match v with
  | JNull => None
  | JObj members => Some (assoc key members)
  | _ => Some None
  end.

(** ** Effects: awaited results, exceptions and the call trace *)

(** The settlement of an awaited promise. *)
Inductive awaited (A : Type) : Type :=
| Resolved (a : A)
| Rejected (reason : string).
Arguments Resolved {A} a.
Arguments Rejected {A} reason.

(** How a block of statements completes. *)
Inductive completion (A : Type) : Type :=
| Normal (a : A)
| Throw (reason : string).
Arguments Normal {A} a.
Arguments Throw {A} reason.

(** A computation over events [E]: its completion and the events it
    emitted, oldest first. *)
Definition Eff (E A : Type) : Type := (completion A * list E)%type.

Definition ret {E A} (a : A) : Eff E A := (Normal a, []).

Definition bind {E A B} (m : Eff E A) (k : A -> Eff E B) : Eff E B :=
  match m with
  | (Normal a, t1) => let (r, t2) := k a in (r, (t1 ++ t2)%list)
  | (Throw e, t1) => (Throw e, t1)
  end.

(** Emit one event. *)
Definition emit {E} (e : E) : Eff E unit := (Normal tt, [e]).

(** Await a collaborator: the call is recorded, a rejection throws. *)
Definition await {E A} (e : E) (r : awaited A) : Eff E A :=
  match r with
  | Resolved a => (Normal a, [e])
  | Rejected reason => (Throw reason, [e])
  end.

(** A recorded synchronous call that may throw. *)
Definition call {E A} (e : E) (c : completion A) : Eff E A := (c, [e]).

(** A statement that throws. *)
Definition throw {E A} (reason : string) : Eff E A := (Throw reason, []).

(** [try { body } catch (error) { handler }]. *)
Definition try_catch {E A} (body : Eff E A) (handler : string -> Eff E A)
  : Eff E A :=
  match body with
  | (Normal a, t) => (Normal a, t)
  | (Throw e, t1) => let (r, t2) := handler e in (r, (t1 ++ t2)%list)
  end.

Declare Scope eff_scope.
Delimit Scope eff_scope with eff.
Notation "x <- m ;; k" := (bind m (fun x => k))
  (at level 61, m at next level, right associativity) : eff_scope.
Notation "m ;;; k" := (bind m (fun _ => k))
  (at level 61, right associativity) : eff_scope.

(** ** Supabase responses (shared by server and client) *)

Record User : Type := mkUser {
  id : string;
  email : option string
}.

(** [{ data: { user }, error }] of [auth.getUser]. *)
Record UserResponse : Type := mkUserResponse {
  user : option User;
  userError : option string
}.

(** A row of [profiles] restricted to the selected column. *)
Record Profile : Type := mkProfile {
  has_paid : option bool
}.

(** [{ data, error }] of [from('profiles').select('has_paid').eq(..).single()]. *)
Record ProfileResponse : Type := mkProfileResponse {
  profile : option Profile;
  profileError : option string
}.

(** [{ error }] of [from('profiles').upsert(..)]. *)
Record UpsertResponse : Type := mkUpsertResponse {
  updateError : option string
}.

(** ** The token route: [src/app/api/video/token/route.ts] *)

(** The module-level constants, read from [process.env] when the module is
    loaded. *)
Record Env : Type := mkEnv {
  CF_STREAM_KEY_ID : string;
  CF_STREAM_SIGNING_KEY_BASE64 : string;
  CF_STREAM_CUSTOMER_SUBDOMAIN : string
}.

(** A Node.js [KeyObject], identified by the PEM text it was built from. *)
Record KeyObject : Type := mkKeyObject {
  pem : string
}.

Record JWTHeader : Type := mkJWTHeader {
  alg : string;
  header_kid : string
}.

Record JWTPayload : Type := mkJWTPayload {
  sub : json;
  kid : string;
  exp : N
}.

(** A compact JWS, kept as its three parts.  [payload] is the claims
    object as it is handed to the signer; the token carries its JSON
    text.  For a string [sub] the two are the same value. *)
Record JWT : Type := mkJWT {
  protectedHeader : JWTHeader;
  payload : JWTPayload;
  signature : string
}.

(** What [POST] reads of a [NextRequest]: the [Authorization] header
    ([headers.get] gives [null] when it is missing) and the settlement of
    [request.json()], which rejects when the body is absent or is not
    valid JSON. *)
Record NextRequest : Type := mkNextRequest {
  authorization : option string;
  request_json : awaited json
}.

(** The collaborators of the route at the time of one call. *)
Record ServerWorld : Type := mkServerWorld {
  (* supabaseAdmin.auth.getUser(accessToken) *)
  auth_getUser : string -> awaited UserResponse;
  (* supabaseAdmin.from('profiles').select('has_paid').eq('id', id).single() *)
  profiles_single : string -> awaited ProfileResponse;
  (* Buffer.from(s, 'base64').toString('utf-8') *)
  base64_to_utf8 : string -> string;
  (* crypto.createPrivateKey({ key, format: 'pem' }) *)
  createPrivateKey : string -> completion KeyObject;
  (* the RS256 signature jose computes in SignJWT.sign *)
  rs256 : KeyObject -> JWTHeader -> JWTPayload -> awaited string;
  (* Date.now(), in milliseconds *)
  Date_now : N
}.

Inductive server_event : Type :=
| EvGetUser (accessToken : string)
| EvProfilesSingle (uid : string)
| EvRequestJson
| EvCreatePrivateKey (pemKey : string)
| EvSign (key : KeyObject) (claims : JWTPayload)
| EvConsoleError (label reason : string).

Inductive ResponseBody : Type :=
| ErrorBody (error : string)
| TokenBody (token : JWT) (videoId : json) (customerSubdomain : string)
    (expiresIn : N).

Record NextResponse : Type := mkNextResponse {
  body : ResponseBody;
  status : N
}.

(** [NextResponse.json(body, { status })]; the status defaults to 200.
    The body is kept as the object given; the answer carries its JSON
    text, which for a string [videoId] is the same value. *)
Definition NextResponse_json (b : ResponseBody) (st : option N)
  : NextResponse :=
  {| body := b; status := match st with Some n => n | None => 200%N end |}.

Definition getPrivateKey (env : Env) (w : ServerWorld)
  : Eff server_event KeyObject :=
  let pemKey := base64_to_utf8 w (CF_STREAM_SIGNING_KEY_BASE64 env) in
  call (EvCreatePrivateKey pemKey) (createPrivateKey w pemKey).

(** [new SignJWT({ sub, kid }).setProtectedHeader(..).setExpirationTime(t)
    .sign(key)]. *)
Definition SignJWT_sign (w : ServerWorld) (videoId : json) (keyId : string)
  (expirationTime : N) (key : KeyObject) : Eff server_event JWT :=
  let header := {| alg := "RS256"; header_kid := keyId |} in
  let claims := {| sub := videoId; kid := keyId; exp := expirationTime |} in
  (sig <- await (EvSign key claims) (rs256 w key header claims) ;;
   ret {| protectedHeader := header; payload := claims; signature := sig |})%eff.

Definition POST (env : Env) (w : ServerWorld) (request : NextRequest)
  : Eff server_event NextResponse :=
  try_catch
    ((* 1. session token from the Authorization header *)
     match authorization request with
     | None =>
         ret (NextResponse_json (ErrorBody "인증이 필요합니다.") (Some 401%N))
     | Some authHeader =>
     if negb (truthy_string authHeader)
        || negb (startsWith authHeader "Bearer ")
     then ret (NextResponse_json (ErrorBody "인증이 필요합니다.") (Some 401%N))
     else
     let accessToken := replace authHeader "Bearer " "" in
     (* 2. the user of the session *)
     (ur <- await (EvGetUser accessToken) (auth_getUser w accessToken) ;;
      match userError ur, user ur with
      | Some _, _ | None, None =>
          ret (NextResponse_json (ErrorBody "유효하지 않은 세션입니다.")
                 (Some 401%N))
      | None, Some u =>
      (* 3. has_paid of the user's profile *)
      pr <- await (EvProfilesSingle (id u)) (profiles_single w (id u)) ;;
      match profileError pr, profile pr with
      | Some _, _ | None, None =>
          ret (NextResponse_json (ErrorBody "프로필 정보를 찾을 수 없습니다.")
                 (Some 404%N))
      | None, Some p =>
      if negb (truthy_obool (has_paid p))
      then ret (NextResponse_json (ErrorBody "결제가 필요합니다.") (Some 403%N))
      else
      (* 4. videoId from the request body *)
      b <- await EvRequestJson (request_json request) ;;
      match get_property b "videoId" with
      | None => throw "TypeError"
      | Some videoId =>
      match videoId with
      | None =>
          ret (NextResponse_json (ErrorBody "videoId가 필요합니다.")
                 (Some 400%N))
      | Some vid =>
      if negb (truthy_json vid)
      then ret (NextResponse_json (ErrorBody "videoId가 필요합니다.")
                  (Some 400%N))
      else
      (* 5. sign the JWT with the signing key *)
      privateKey <- getPrivateKey env w ;;
      let expiresIn := 3600%N in
      let expirationTime := (Date_now w / 1000 + expiresIn)%N in
      token <- SignJWT_sign w vid (CF_STREAM_KEY_ID env) expirationTime
                 privateKey ;;
      ret (NextResponse_json
             (TokenBody token vid (CF_STREAM_CUSTOMER_SUBDOMAIN env) expiresIn)
             None)
      end end end end)%eff
     end)
    (fun error =>
       (emit (EvConsoleError "비디오 토큰 생성 오류:" error) ;;;
        ret (NextResponse_json (ErrorBody "토큰 생성에 실패했습니다.")
               (Some 500%N)))%eff).

(** The server process: the module constants are fixed once, the handler
    is run for each request against the world of that moment.  Nothing but
    [env] is carried from one call to the next. *)
Definition serve (env : Env) (calls : list (ServerWorld * NextRequest))
  : list (Eff server_event NextResponse) :=
  map (fun c => POST env (fst c) (snd c)) calls.

(** The token of a response, if it carries one. *)
Definition token_of (r : NextResponse) : option JWT :=
  match body r with
  | TokenBody t _ _ _ => Some t
  | ErrorBody _ => None
  end.

(** ** The player component: [VideoPlayerWithAuth] *)

Record Props : Type := mkProps {
  videoUrl : option string;
  thumbnail : option string;
  title : string;
  courseId : string;
  price : Z
}.

(** The public PortOne settings inlined from [process.env]. *)
Record ClientEnv : Type := mkClientEnv {
  NEXT_PUBLIC_PORTONE_STORE_ID : string;
  NEXT_PUBLIC_PORTONE_CHANNEL_KEY : string
}.

Record PaymentRequest : Type := mkPaymentRequest {
  storeId : string;
  channelKey : string;
  paymentId : string;
  orderName : string;
  totalAmount : Z;
  currency : string;
  payMethod : string;
  easyPayProvider : string;
  customer_email : option string
}.

(** The fields [handlePayment] reads of PortOne's answer. *)
Record PaymentResponse : Type := mkPaymentResponse {
  code : option string;
  message : option string
}.

Inductive AuthStatus : Type := loading | not_logged_in | not_paid | paid.

(** The collaborators of the component at the time of one run. *)
Record ClientWorld : Type := mkClientWorld {
  (* supabase.auth.getUser() *)
  session_getUser : awaited UserResponse;
  (* supabase.from('profiles').select('has_paid').eq('id', id).single() *)
  client_profiles_single : string -> awaited ProfileResponse;
  (* PortOne.requestPayment(request); may resolve to undefined *)
  requestPayment : PaymentRequest -> awaited (option PaymentResponse);
  (* supabase.from('profiles').upsert({ id, has_paid }, { onConflict: 'id' }) *)
  profiles_upsert : string -> bool -> awaited UpsertResponse;
  (* Date.now(), in milliseconds *)
  client_Date_now : N
}.

Inductive client_event : Type :=
| CGetUser
| CProfilesSingle (uid : string)
| CRequestPayment (req : PaymentRequest)
| CProfilesUpsert (uid : string) (paid_flag : bool)
| CAlert (msg : string)
| CConsoleError (label reason : string)
| CSetAuthStatus (s : AuthStatus)
| CSetIsProcessing (b : bool)
| CReload.

(** [`payment-${courseId}-${user.id}-${Date.now()}`]. *)
Definition make_paymentId (course uid : string) (now : N) : string :=
  "payment-" ++ course ++ "-" ++ uid ++ "-" ++ string_of_N now.



(** [response?.code] as a condition. *)
Definition response_code_truthy (response : option PaymentResponse) : bool :=
  match response with
  | None => false
  | Some r => truthy_ostring (code r)
  end.

(** [response.message] inside the failure alert. *)
Definition response_message (response : option PaymentResponse)
  : option string :=
  match response with
  | None => None
  | Some r => message r
  end.

Definition alert_login_required : string := "로그인이 필요합니다.".
Definition alert_payment_failed (msg : option string) : string :=
  "결제 실패: " ++ template_ostring msg.
Definition alert_paid_but_unrecorded : string :=
  "결제는 완료되었으나 프로필 업데이트에 실패했습니다. 고객센터에 문의해주세요.".
Definition alert_payment_done : string := "결제 완료!".
Definition alert_payment_error : string := "결제 처리 중 오류가 발생했습니다.".

(** The argument of [PortOne.requestPayment]. *)
Definition payment_request (cenv : ClientEnv) (props : Props) (u : User)
  (pid : string) : PaymentRequest :=
  {| storeId := NEXT_PUBLIC_PORTONE_STORE_ID cenv;
     channelKey := NEXT_PUBLIC_PORTONE_CHANNEL_KEY cenv;
     paymentId := pid;
     orderName := title props;
     totalAmount := price props;
     currency := "CURRENCY_KRW";
     payMethod := "EASY_PAY";
     easyPayProvider := "KAKAOPAY";
     customer_email := email u |}.

Definition handlePayment (cenv : ClientEnv) (props : Props) (w : ClientWorld)
  : Eff client_event unit :=
  (emit (CSetIsProcessing true) ;;;
   try_catch
     (ur <- await CGetUser (session_getUser w) ;;
      match user ur with
      | None =>
          emit (CAlert alert_login_required) ;;;
          emit (CSetIsProcessing false)
      | Some u =>
      (* a payment id of its own for this attempt *)
      let pid := make_paymentId (courseId props) (id u) (client_Date_now w) in
      let req := payment_request cenv props u pid in
      response <- await (CRequestPayment req) (requestPayment w req) ;;
      if response_code_truthy response
      then
        (* payment failed or was cancelled *)
        emit (CAlert (alert_payment_failed (response_message response))) ;;;
        emit (CSetIsProcessing false)
      else
      (* payment succeeded: record it in profiles *)
      up <- await (CProfilesUpsert (id u) true)
              (profiles_upsert w (id u) true) ;;
      match updateError up with
      | Some e =>
          emit (CConsoleError "프로필 업데이트 오류:" e) ;;;
          emit (CAlert alert_paid_but_unrecorded) ;;;
          emit (CSetIsProcessing false)
      | None =>
          emit (CAlert alert_payment_done) ;;;
          emit CReload
      end
      end)
     (fun error =>
        emit (CConsoleError "결제 오류:" error) ;;;
        emit (CAlert alert_payment_error) ;;;
        emit (CSetIsProcessing false)))%eff.

(** The body of the mount effect.  It has no [try]: a rejected await ends
    it without any [setAuthStatus]. *)
Definition checkAuth (w : ClientWorld) : Eff client_event unit :=
  ((* 1. the logged-in user *)
   ur <- await CGetUser (session_getUser w) ;;
   match userError ur, user ur with
   | Some _, _ | None, None => emit (CSetAuthStatus not_logged_in)
   | None, Some u =>
   (* 2. has_paid of the user's profile *)
   pr <- await (CProfilesSingle (id u)) (client_profiles_single w (id u)) ;;
   match profileError pr, profile pr with
   | Some _, _ | None, None => emit (CSetAuthStatus not_paid)
   | None, Some p =>
   (* 3. the status follows has_paid *)
   if truthy_obool (has_paid p)
   then emit (CSetAuthStatus paid)
   else emit (CSetAuthStatus not_paid)
   end end)%eff.

(** The value of the [authStatus] state after a run of events. *)
Definition authStatus_after (s0 : AuthStatus) (tr : list client_event)
  : AuthStatus :=
  fold_left (fun s e => match e with CSetAuthStatus s' => s' | _ => s end)
    tr s0.

(** One evaluation of the state machine: the component mounts with
    [useState('loading')] and runs [checkAuth]. *)
Definition evaluate (w : ClientWorld) : AuthStatus :=
  authStatus_after loading (snd (checkAuth w)).

(** Observers of a client trace. *)
Definition is_upsert (e : client_event) : bool :=
  match e with CProfilesUpsert _ _ => true | _ => false end.

Definition alerts (tr : list client_event) : list string :=
  flat_map (fun e => match e with CAlert m => [m] | _ => [] end) tr.

Definition upserts (tr : list client_event) : list client_event :=
  filter is_upsert tr.

(** Observers of a server trace. *)
Definition is_key_load (e : server_event) : bool :=
  match e with EvCreatePrivateKey _ => true | _ => false end.

Definition key_loads (tr : list server_event) : nat :=
  length (filter is_key_load tr).

Definition is_profile_read (uid : string) (e : server_event) : bool :=
  match e with EvProfilesSingle u => String.eqb u uid | _ => false end.

Definition is_body_read (e : server_event) : bool :=
  match e with EvRequestJson => true | _ => false end.

(** ** Conditions on a call, as the handler's checks see them *)

(** The request is turned away before any entitlement lookup: no
    [Authorization] header, a header that is not Bearer-prefixed, or a
    session token for which the identity provider answers with an error or
    without a user. *)
Inductive unauthenticated (w : ServerWorld) (request : NextRequest) : Prop :=
| header_missing :
    authorization request = None -> unauthenticated w request
| header_not_bearer (h : string) :
    authorization request = Some h ->
    startsWith h "Bearer " = false ->
    unauthenticated w request
| session_rejected (h : string) (ur : UserResponse) :
    authorization request = Some h ->
    startsWith h "Bearer " = true ->
    auth_getUser w (replace h "Bearer " "") = Resolved ur ->
    userError ur <> None \/ user ur = None ->
    unauthenticated w request.

(** The request carries a Bearer session token that the identity provider
    resolves to the user [u]. *)
Definition authenticates (w : ServerWorld) (request : NextRequest) (u : User)
  : Prop :=
  exists h,
    authorization request = Some h /\
    startsWith h "Bearer " = true /\
    auth_getUser w (replace h "Bearer " "")
    = Resolved {| user := Some u; userError := None |}.

(** The same world with another answer of the [profiles] table. *)
Definition with_profiles (w : ServerWorld)
  (f : string -> awaited ProfileResponse) : ServerWorld :=
  {| auth_getUser := auth_getUser w;
     profiles_single := f;
     base64_to_utf8 := base64_to_utf8 w;
     createPrivateKey := createPrivateKey w;
     rs256 := rs256 w;
     Date_now := Date_now w |}.

(** The same request with another body. *)
Definition with_body (request : NextRequest) (b : awaited json)
  : NextRequest :=
  {| authorization := authorization request; request_json := b |}.

Definition status_of (r : Eff server_event NextResponse) : option N :=
  match fst r with
  | Normal resp => Some (status resp)
  | Throw _ => None
  end.

(** Further observers of a server trace. *)
Definition is_lookup (e : server_event) : bool :=
  match e with EvProfilesSingle _ => true | _ => false end.

Definition is_sign (e : server_event) : bool :=
  match e with EvSign _ _ => true | _ => false end.

(** The answer of the lookup shows no entitlement: there is no record, or
    the record's [has_paid] is not [true] (it is [false] or NULL). *)
Definition absent_or_unpaid (pr : ProfileResponse) : Prop :=
  profile pr = None \/
  exists p, profile pr = Some p /\ has_paid p <> Some true.

(** Key loads in the whole run of a process. *)
Definition total_key_loads (rs : list (Eff server_event NextResponse)) : nat :=
  list_sum (map (fun r => key_loads (snd r)) rs).

Definition is_success (r : Eff server_event NextResponse) : bool :=
  match status_of r with
  | Some st => N.eqb st 200
  | None => false
  end.

(** The request [handlePayment] sends for the user [u] in the world [w]. *)
Definition request_for (cenv : ClientEnv) (props : Props) (w : ClientWorld)
  (u : User) : PaymentRequest :=
  payment_request cenv props u
    (make_paymentId (courseId props) (id u) (client_Date_now w)).

(** ** A [profiles] table behind the lookup *)

(** The table as the store holds it, and whether the store can be reached
    ([outage] carries the transport error when it cannot). *)
Record Store : Type := mkStore {
  rows : list (string * Profile);
  outage : option string
}.

Fixpoint find_row (uid : string) (rs : list (string * Profile))
  : option Profile :=
  match rs with
  | [] => None
  | (k, p) :: rest => if String.eqb k uid then Some p else find_row uid rest
  end.

(** The error code of [single()] when no row matches. *)
Definition no_rows_error : string := "PGRST116".

(** The answer of [select('has_paid').eq('id', uid).single()] over a
    store: the transport error during an outage, the row when there is
    one, the no-rows error otherwise. *)
Definition single (s : Store) (uid : string) : awaited ProfileResponse :=
  match outage s with
  | Some e => Resolved {| profile := None; profileError := Some e |}
  | None =>
      match find_row uid (rows s) with
      | Some p => Resolved {| profile := Some p; profileError := None |}
      | None =>
          Resolved {| profile := None; profileError := Some no_rows_error |}
      end
  end.

(** ** Readings that the code does not follow, kept to be refuted *)

(** "A lookup that fails, other than by finding no row, is answered 500." *)
Definition lookup_failure_is_internal : Prop :=
  forall env w request u pr e,
    authenticates w request u ->
    profiles_single w (id u) = Resolved pr ->
    profileError pr = Some e ->
    e <> no_rows_error ->
    status_of (POST env w request) = Some 500%N.

(** "404 is answered only when the table has no row for the user." *)
Definition not_found_only_without_row : Prop :=
  forall env w s request u,
    profiles_single w = single s ->
    authenticates w request u ->
    status_of (POST env w request) = Some 404%N ->
    find_row (id u) (rows s) = None.

(** "A mint call never loads the key itself." *)
Definition mint_never_loads_key : Prop :=
  forall env w request, key_loads (snd (POST env w request)) = 0.


(** HTTP whitespace: tab, line feed, carriage return and space. *)
Definition is_http_whitespace (c : ascii) : bool :=
  Ascii.eqb c "009" || Ascii.eqb c "010" || Ascii.eqb c "013"
  || Ascii.eqb c " ".

Definition starts_with_whitespace (s : string) : bool :=
  match s with
  | EmptyString => false
  | String c _ => is_http_whitespace c
  end.

Fixpoint ends_with_whitespace (s : string) : bool :=
  match s with
  | EmptyString => false
  | String c EmptyString => is_http_whitespace c
  | String _ s' => ends_with_whitespace s'
  end.

(** A header value as [headers.get] returns it: leading and trailing HTTP
    whitespace have been stripped. *)
Definition normalised_header (s : string) : bool :=
  negb (starts_with_whitespace s) && negb (ends_with_whitespace s).

(** ** Sample data for concrete runs *)

Definition sample_env : Env :=
  {| CF_STREAM_KEY_ID := "key-1";
     CF_STREAM_SIGNING_KEY_BASE64 := "LS0tLS1CRUdJTg==";
     CF_STREAM_CUSTOMER_SUBDOMAIN := "customer-abc.cloudflarestream.com" |}.

Definition alice : User :=
  {| id := "user-1"; email := Some "alice@example.com" |}.

(** A world whose identity provider knows the session token [good] and
    whose [profiles] table answers [pr] to every lookup. *)
Definition sample_world (pr : awaited ProfileResponse) : ServerWorld :=
  {| auth_getUser := fun tok =>
       if String.eqb tok "good"
       then Resolved {| user := Some alice; userError := None |}
       else Resolved {| user := None; userError := Some "invalid JWT" |};
     profiles_single := fun _ => pr;
     base64_to_utf8 := fun _ => "-----BEGIN";
     createPrivateKey := fun pemKey => Normal {| pem := pemKey |};
     rs256 := fun _ _ _ => Resolved "c2lnbmF0dXJl";
     Date_now := 1700000000123 |}.

Definition paid_row : awaited ProfileResponse :=
  Resolved {| profile := Some {| has_paid := Some true |};
              profileError := None |}.

Definition unpaid_row : awaited ProfileResponse :=
  Resolved {| profile := Some {| has_paid := Some false |};
              profileError := None |}.

(** What [single()] reports when no row matches. *)
Definition no_row : awaited ProfileResponse :=
  Resolved {| profile := None; profileError := Some no_rows_error |}.

(** A store that holds [alice]'s paid row and cannot be reached. *)
Definition unreachable_store : Store :=
  {| rows := [("user-1", {| has_paid := Some true |})];
     outage := Some "TypeError: fetch failed" |}.

(** What the lookup reports when the store cannot be reached. *)
Definition store_down : awaited ProfileResponse :=
  single unreachable_store "user-1".

Definition sample_request (b : awaited json) : NextRequest :=
  {| authorization := Some "Bearer good"; request_json := b |}.

Definition video_body : awaited json :=
  Resolved (JObj [("videoId", JStr "vid123")]).

(** A process that mints for [alice] and is called again after her row
    has been set to unpaid. *)
Definition revocation_calls : list (ServerWorld * NextRequest) :=
  [(sample_world paid_row, sample_request video_body);
   (sample_world unpaid_row, sample_request video_body)].

(** The sample world in front of the unreachable store. *)
Definition unreachable_world : ServerWorld :=
  with_profiles (sample_world paid_row) (single unreachable_store).

(** A request whose body is cut short. *)
Definition truncated_request : NextRequest :=
  sample_request (Rejected "SyntaxError: Unexpected end of JSON input").

Definition sample_cenv : ClientEnv :=
  {| NEXT_PUBLIC_PORTONE_STORE_ID := "store-1";
     NEXT_PUBLIC_PORTONE_CHANNEL_KEY := "channel-1" |}.

Definition sample_props : Props :=
  {| videoUrl := Some "https://youtu.be/abc";
     thumbnail := None;
     title := "Makeup basics";
     courseId := "course-7";
     price := 33000 |}.

(** A browser whose session is [alice]'s, with the given answers of the
    [profiles] table, of PortOne and of the upsert. *)
Definition sample_client (pr : awaited ProfileResponse)
  (pay : awaited (option PaymentResponse)) (up : awaited UpsertResponse)
  : ClientWorld :=
  {| session_getUser := Resolved {| user := Some alice; userError := None |};
     client_profiles_single := fun _ => pr;
     requestPayment := fun _ => pay;
     profiles_upsert := fun _ _ => up;
     client_Date_now := 1700000000123 |}.

(** A browser without a session. *)
Definition anonymous_client : ClientWorld :=
  {| session_getUser :=
       Resolved {| user := None; userError := Some "Auth session missing!" |};
     client_profiles_single := fun _ => paid_row;
     requestPayment := fun _ => Resolved None;
     profiles_upsert := fun _ _ => Resolved {| updateError := None |};
     client_Date_now := 1700000000123 |}.


Definition payment_ok : awaited (option PaymentResponse) :=
  Resolved (Some {| code := None; message := None |}).

Definition upsert_ok : awaited UpsertResponse :=
  Resolved {| updateError := None |}.

Definition upsert_failed : awaited UpsertResponse :=
  Resolved {| updateError := Some "permission denied for table profiles" |}.


(** The charge goes through and the upsert is refused. *)
Definition unrecorded_client : ClientWorld :=
  sample_client no_row payment_ok upsert_failed.

(** ** The rest of the player component *)

(** [String.prototype.includes]. *)
Fixpoint includes (s sub : string) : bool :=
  if String.prefix sub s then true
  else match s with
       | EmptyString => false
       | String _ s' => includes s' sub
       end.

(** [String.prototype.split] with a non-empty string separator, scanning
    from the left: [cur] is the piece being built, [skip] counts the
    characters of a separator just found that are still to be passed. *)
Fixpoint split_from (sep : string) (skip : nat) (cur s : string)
  : list string :=
  match s with
  | EmptyString => [cur]
  | String c s' =>
      match skip with
      | S k => split_from sep k cur s'
      | O =>
          if String.prefix sep s
          then cur :: split_from sep (String.length sep - 1) "" s'
          else split_from sep 0 (cur ++ String c "") s'
      end
  end.

Definition split (s sep : string) : list string := split_from sep 0 "" s.

Definition isYouTubeUrl (url : string) : bool :=
  includes url "youtube.com" || includes url "youtu.be".

(** [url.split(sep)[1]?.split(stop)[0] || '']. *)
Definition segment_after (url sep stop : string) : string :=
  match nth_error (split url sep) 1 with
  | None => ""
  | Some rest =>
      match split rest stop with
      | first :: _ => first
      | [] => ""
      end
  end.

Definition getYouTubeEmbedUrl (url : string) : string :=
  let videoId :=
    if includes url "youtu.be/" then segment_after url "youtu.be/" "?"
    else if includes url "watch?v=" then segment_after url "watch?v=" "&"
    else if includes url "embed/" then segment_after url "embed/" "?"
    else "" in
  "https://www.youtube.com/embed/" ++ videoId.

(** A video id without [?], [&] and [/]. *)
Definition plain_id (vid : string) : bool :=
  negb (includes vid "?") && negb (includes vid "&")
  && negb (includes vid "/").

(** What [VideoPlayer] renders: an [iframe] or a [video] element. *)
Inductive Media : Type :=
| Iframe (src : string)
| Video (src : string).

Definition VideoPlayer (url : string) : Media :=
  if isYouTubeUrl url then Iframe (getYouTubeEmbedUrl url) else Video url.

(** What is drawn behind a prompt: the dimmed thumbnail or a gradient. *)
Inductive Backdrop : Type :=
| DimmedThumbnail (src : string)
| Gradient.

(** The four screens of [VideoPlayerWithAuth], with what varies in them. *)
Inductive View : Type :=
| Spinner
| LoginPrompt (backdrop : Backdrop)
| PaymentPrompt (backdrop : Backdrop) (buttonDisabled : bool)
    (buttonLabel : string)
| Player (m : Media)
| Poster (src : string)
| Placeholder.

Definition backdrop_of (thumb : option string) : Backdrop :=
  match thumb with
  | Some src => if truthy_string src then DimmedThumbnail src else Gradient
  | None => Gradient
  end.

(** The render of [VideoPlayerWithAuth] for the current state. *)
Definition render (props : Props) (authStatus : AuthStatus)
  (isProcessing : bool) : View :=
  match authStatus with
  | loading => Spinner
  | not_logged_in => LoginPrompt (backdrop_of (thumbnail props))
  | not_paid =>
      PaymentPrompt (backdrop_of (thumbnail props)) isProcessing
        (if isProcessing then "결제 처리 중..." else "지금 결제하기")
  | paid =>
      match videoUrl props with
      | Some url =>
          if truthy_string url then Player (VideoPlayer url)
          else match thumbnail props with
               | Some src => if truthy_string src then Poster src
                             else Placeholder
               | None => Placeholder
               end
      | None =>
          match thumbnail props with
          | Some src => if truthy_string src then Poster src else Placeholder
          | None => Placeholder
          end
      end
  end.

(** A view that plays the course video. *)
Definition plays_video (v : View) : bool :=
  match v with Player _ => true | _ => false end.

(** A view that offers the payment button. *)
Definition offers_payment (v : View) : bool :=
  match v with PaymentPrompt _ _ _ => true | _ => false end.

(** The value of the [isProcessing] state after a run of events. *)
Definition isProcessing_after (b0 : bool) (tr : list client_event) : bool :=
  fold_left (fun b e => match e with CSetIsProcessing b' => b' | _ => b end)
    tr b0.

Definition payment_requests (tr : list client_event) : list PaymentRequest :=
  flat_map (fun e => match e with CRequestPayment r => [r] | _ => [] end) tr.

Definition is_reload (e : client_event) : bool :=
  match e with CReload => true | _ => false end.

Definition is_read_event (e : client_event) : bool :=
  match e with
  | CGetUser | CProfilesSingle _ | CSetAuthStatus _ => true
  | _ => false
  end.

Definition status_sets (tr : list client_event) : list AuthStatus :=
  flat_map (fun e => match e with CSetAuthStatus s => [s] | _ => [] end) tr.

(** ** The course page: [src/app/courses/[id]/page.tsx] *)

(** The fields of a [Course] row that the page hands to the player. *)
Record Course : Type := mkCourse {
  course_id : string;
  course_title : string;
  course_price : Z;
  course_thumbnail : option string;
  course_video_url : option string
}.

(** [{ data, error }] of [from('courses').select('*').eq('id', id).single()]. *)
Record CourseResponse : Type := mkCourseResponse {
  course_data : option Course;
  course_error : option string
}.

Inductive page_event : Type :=
| PCoursesSingle (cid : string)
| PConsoleError (label reason : string).

Definition getCourse (courses_single : string -> awaited CourseResponse)
  (cid : string) : Eff page_event (option Course) :=
  (r <- await (PCoursesSingle cid) (courses_single cid) ;;
   match course_error r with
   | Some e =>
       emit (PConsoleError "Error fetching course:" e) ;;;
       ret None
   | None => ret (course_data r)
   end)%eff.

(** [CourseDetailPage], as far as the player is concerned: the props it
    gives to [VideoPlayerWithAuth].  [notFound()] throws. *)
Definition CourseDetailPage
  (courses_single : string -> awaited CourseResponse) (cid : string)
  : Eff page_event Props :=
  (course <- getCourse courses_single cid ;;
   match course with
   | None => throw "NEXT_NOT_FOUND"
   | Some c =>
       ret {| videoUrl := course_video_url c;
              thumbnail := course_thumbnail c;
              title := course_title c;
              courseId := course_id c;
              price := course_price c |}
   end)%eff.

(** ** Further observers of a server run *)

(** The place of an event in the handler's sequence of steps. *)
Definition step_of (e : server_event) : nat :=
  match e with
  | EvGetUser _ => 0
  | EvProfilesSingle _ => 1
  | EvRequestJson => 2
  | EvCreatePrivateKey _ => 3
  | EvSign _ _ => 4
  | EvConsoleError _ _ => 5
  end.

Definition is_console_error (e : server_event) : bool :=
  match e with EvConsoleError _ _ => true | _ => false end.

Definition generic_error_body : ResponseBody :=
  ErrorBody "토큰 생성에 실패했습니다.".

(** The same worlds seen from both sides: the browser's session is the
    one the request's token stands for, and both read the same table. *)
Definition same_backend (sw : ServerWorld) (cw : ClientWorld)
  (accessToken : string) : Prop :=
  auth_getUser sw accessToken = session_getUser cw
  /\ forall uid, profiles_single sw uid = client_profiles_single cw uid.

(** ** More sample data *)

(** The identity provider cannot be reached. *)
Definition idp_down_world : ServerWorld :=
  {| auth_getUser := fun _ => Rejected "TypeError: fetch failed";
     profiles_single := profiles_single (sample_world paid_row);
     base64_to_utf8 := base64_to_utf8 (sample_world paid_row);
     createPrivateKey := createPrivateKey (sample_world paid_row);
     rs256 := rs256 (sample_world paid_row);
     Date_now := Date_now (sample_world paid_row) |}.

(** The configured signing key is not a PEM key. *)
Definition bad_key_world : ServerWorld :=
  {| auth_getUser := auth_getUser (sample_world paid_row);
     profiles_single := profiles_single (sample_world paid_row);
     base64_to_utf8 := base64_to_utf8 (sample_world paid_row);
     createPrivateKey := fun _ => Throw "ERR_OSSL_UNSUPPORTED";
     rs256 := rs256 (sample_world paid_row);
     Date_now := Date_now (sample_world paid_row) |}.

(** The signer refuses the key. *)
Definition bad_signer_world : ServerWorld :=
  {| auth_getUser := auth_getUser (sample_world paid_row);
     profiles_single := profiles_single (sample_world paid_row);
     base64_to_utf8 := base64_to_utf8 (sample_world paid_row);
     createPrivateKey := createPrivateKey (sample_world paid_row);
     rs256 := fun _ _ _ => Rejected "TypeError: key too short";
     Date_now := Date_now (sample_world paid_row) |}.

(** A body whose [videoId] is the empty string. *)
Definition empty_id_body : json := JObj [("videoId", JStr "")].

(** The charge goes through and the upsert is acknowledged. *)
Definition paying_client : ClientWorld :=
  sample_client no_row payment_ok upsert_ok.

(** The session cannot be read. *)
Definition session_down_client : ClientWorld :=
  {| session_getUser := Rejected "TypeError: fetch failed";
     client_profiles_single := fun _ => paid_row;
     requestPayment := fun _ => payment_ok;
     profiles_upsert := fun _ _ => upsert_ok;
     client_Date_now := 1700000000123 |}.

(** PortOne's promise rejects. *)
Definition gateway_down_client : ClientWorld :=
  sample_client no_row (Rejected "PortOneError: window closed") upsert_ok.

(** The charge goes through and the upsert promise rejects. *)
Definition upsert_rejecting_client : ClientWorld :=
  sample_client no_row payment_ok (Rejected "TypeError: fetch failed").

(** A viewer whose row says paid. *)
Definition paid_client : ClientWorld :=
  sample_client paid_row payment_ok upsert_ok.

Definition sample_course : Course :=
  {| course_id := "course-7";
     course_title := "Makeup basics";
     course_price := 33000;
     course_thumbnail := None;
     course_video_url := Some "https://youtu.be/abc" |}.

(** A [courses] table that knows [course-7]. *)
Definition sample_courses (cid : string) : awaited CourseResponse :=
  if String.eqb cid "course-7"
  then Resolved {| course_data := Some sample_course; course_error := None |}
  else Resolved {| course_data := None; course_error := Some "PGRST116" |}.

(** An answer that carries both a row and an error. *)
Definition confused_courses (cid : string) : awaited CourseResponse :=
  Resolved {| course_data := Some sample_course;
              course_error := Some "warning" |}.

(** ** Lemmas on the helpers *)

Lemma startsWith_truthy (h pat : string) :
  pat <> "" -> startsWith h pat = true -> truthy_string h = true.
Proof.
  intros Hpat H. destruct h as [|c h]; [|reflexivity].
  destruct pat; [congruence|discriminate H].
Qed.

Lemma replace_prefix (h pat rep : string) :
  startsWith h pat = true ->
  replace h pat rep = rep ++ string_drop (String.length pat) h.
Proof.
  unfold startsWith. intros H. destruct h; cbn [replace]; rewrite H; reflexivity.
Qed.

#[local] Arguments startsWith : simpl never.
#[local] Arguments replace : simpl never.
#[local] Arguments N.div : simpl never.
#[local] Arguments N.add : simpl never.

Lemma userError_cases (ur : UserResponse) :
  userError ur <> None \/ user ur = None ->
  match userError ur, user ur with
  | Some _, _ | None, None => True
  | None, Some _ => False
  end.
Proof.
  destruct ur as [[u|] [e|]]; simpl; intros [H|H]; try exact I; congruence.
Qed.

(** Entering [POST] with a session that resolves: what is left is decided
    by the profile lookup. *)
Ltac enter_POST H :=
  let h := fresh "h" in
  let Hh := fresh "Hh" in
  let Hp := fresh "Hp" in
  let Hu := fresh "Hu" in
  destruct H as (h & Hh & Hp & Hu);
  unfold POST; rewrite Hh, Hp;
  rewrite (startsWith_truthy h "Bearer ") by (congruence || exact Hp);
  rewrite Hu; cbn [negb orb await bind user userError id].

(** Case analysis of a run of [POST] kept in hypothesis [H]: one goal for
    each path through the handler, with the answers of the collaborators
    on that path as equations. *)
Ltac POST_split H :=
  unfold POST, getPrivateKey, SignJWT_sign, NextResponse_json, call in H;
  repeat (simpl in H;
    match type of H with
    | context [match authorization ?r with _ => _ end] =>
        destruct (authorization r) eqn:?
    | context [truthy_string ?h] => destruct (truthy_string h) eqn:?
    | context [startsWith ?h ?p] => destruct (startsWith h p) eqn:?
    | context [auth_getUser ?w ?t] => destruct (auth_getUser w t) eqn:?
    | context [match userError ?u with _ => _ end] =>
        destruct (userError u) eqn:?
    | context [match user ?u with _ => _ end] => destruct (user u) eqn:?
    | context [profiles_single ?w ?i] => destruct (profiles_single w i) eqn:?
    | context [match profileError ?u with _ => _ end] =>
        destruct (profileError u) eqn:?
    | context [match profile ?u with _ => _ end] => destruct (profile u) eqn:?
    | context [truthy_obool ?b] => destruct (truthy_obool b) eqn:?
    | context [request_json ?r] => destruct (request_json r) eqn:?
    | context [get_property ?b ?k] =>
        destruct (get_property b k) as [[?|]|] eqn:?
    | context [truthy_json ?v] => destruct (truthy_json v) eqn:?
    | context [createPrivateKey ?w ?p] => destruct (createPrivateKey w p) eqn:?
    | context [rs256 ?w ?k ?hd ?c] => destruct (rs256 w k hd c) eqn:?
    end);
  simpl in H.

Section TokenRoute.

Variable env : Env.

Lemma POST_unauthenticated (w : ServerWorld) (request : NextRequest) :
  unauthenticated w request ->
  exists msg tr,
    POST env w request
    = (Normal {| body := ErrorBody msg; status := 401 |}, tr)
    /\ (tr = [] \/ exists tok, tr = [EvGetUser tok]).
Proof.
  intros [Hh | h Hh Hp | h ur Hh Hp Hu Hr]; unfold POST; rewrite Hh.
  - eexists _, _; split; [reflexivity | now left].
  - rewrite Hp. rewrite orb_true_r.
    eexists _, _; split; [reflexivity | now left].
  - rewrite Hp, (startsWith_truthy h "Bearer "), Hu by (congruence || exact Hp).
    apply userError_cases in Hr. simpl.
    destruct (userError ur), (user ur); try contradiction;
      (eexists _, _; split; [reflexivity | right; eexists; reflexivity]).
Qed.

Lemma POST_lookup_rejected (w : ServerWorld) (request : NextRequest)
  (u : User) (reason : string) :
  authenticates w request u ->
  profiles_single w (id u) = Rejected reason ->
  exists tr,
    POST env w request
    = (Normal {| body := ErrorBody "토큰 생성에 실패했습니다."; status := 500 |},
       tr).
Proof.
  intros Ha Hl. enter_POST Ha. rewrite Hl. simpl. eexists. reflexivity.
Qed.

Lemma POST_not_found (w : ServerWorld) (request : NextRequest)
  (u : User) (pr : ProfileResponse) :
  authenticates w request u ->
  profiles_single w (id u) = Resolved pr ->
  profileError pr <> None \/ profile pr = None ->
  exists tok,
    POST env w request
    = (Normal {| body := ErrorBody "프로필 정보를 찾을 수 없습니다.";
                 status := 404 |},
       [EvGetUser tok; EvProfilesSingle (id u)]).
Proof.
  intros Ha Hl Hc. enter_POST Ha. rewrite Hl. simpl.
  destruct pr as [[p|] [e|]]; simpl in *;
    try (eexists; reflexivity).
  destruct Hc; congruence.
Qed.

Lemma POST_forbidden (w : ServerWorld) (request : NextRequest)
  (u : User) (p : Profile) :
  authenticates w request u ->
  profiles_single w (id u)
  = Resolved {| profile := Some p; profileError := None |} ->
  has_paid p <> Some true ->
  exists tok,
    POST env w request
    = (Normal {| body := ErrorBody "결제가 필요합니다."; status := 403 |},
       [EvGetUser tok; EvProfilesSingle (id u)]).
Proof.
  intros Ha Hl Hc. enter_POST Ha. rewrite Hl. simpl.
  destruct p as [[[|]|]]; simpl in *;
    try (eexists; reflexivity).
  congruence.
Qed.

Lemma POST_unauthenticated_profiles (w : ServerWorld) (request : NextRequest)
  (f : string -> awaited ProfileResponse) :
  unauthenticated w request ->
  POST env (with_profiles w f) request = POST env w request.
Proof.
  intros [Hh | h Hh Hp | h ur Hh Hp Hu Hr]; unfold POST; rewrite Hh.
  - reflexivity.
  - rewrite Hp, orb_true_r. reflexivity.
  - rewrite Hp, (startsWith_truthy h "Bearer ") by (congruence || exact Hp).
    cbn [with_profiles auth_getUser negb orb]. rewrite Hu.
    apply userError_cases in Hr. cbn [await bind].
    destruct (userError ur), (user ur); try contradiction; reflexivity.
Qed.

(** C3. A request whose [Authorization] header is missing or is not
    Bearer-prefixed, or whose session token the identity provider rejects,
    is answered 401 Unauthorized.  No entitlement lookup is made, and the
    answer is the same whatever the [profiles] table would say. *)
Theorem unauthorized_whatever_entitlement
  (w : ServerWorld) (request : NextRequest) :
  unauthenticated w request ->
  exists msg tr,
    POST env w request
    = (Normal {| body := ErrorBody msg; status := 401 |}, tr)
    /\ existsb is_lookup tr = false
    /\ forall f, POST env (with_profiles w f) request = POST env w request.
Proof.
  intros Hu.
  destruct (POST_unauthenticated w request Hu) as (msg & tr & Heq & Htr).
  exists msg, tr. split; [exact Heq|]. split.
  - destruct Htr as [-> | [tok ->]]; reflexivity.
  - intros f. apply POST_unauthenticated_profiles. exact Hu.
Qed.

(** [POST] always answers: every exception is caught by the handler. *)
Lemma POST_total (w : ServerWorld) (request : NextRequest) :
  exists r tr, POST env w request = (Normal r, tr).
Proof.
  destruct (POST env w request) as [[r|e] tr] eqn:H; [eauto|].
  POST_split H; discriminate H.
Qed.

Lemma unauthenticated_with_body (w : ServerWorld) (request : NextRequest)
  (b : awaited json) :
  unauthenticated w request -> unauthenticated w (with_body request b).
Proof.
  intros [Hh | h Hh Hp | h ur Hh Hp Hu Hr].
  - now apply header_missing.
  - now apply (header_not_bearer _ _ h).
  - now apply (session_rejected _ _ h ur).
Qed.

Lemma authenticates_with_body (w : ServerWorld) (request : NextRequest)
  (b : awaited json) (u : User) :
  authenticates w request u -> authenticates w (with_body request b) u.
Proof. intros (h & Hh & Hp & Hu). exists h. auto. Qed.

Lemma truthy_obool_true (b : option bool) :
  truthy_obool b = true -> b = Some true.
Proof. destruct b as [[|]|]; simpl; congruence. Qed.

Lemma POST_not_entitled (w : ServerWorld) (request : NextRequest)
  (u : User) (pr : ProfileResponse) :
  authenticates w request u ->
  profiles_single w (id u) = Resolved pr ->
  absent_or_unpaid pr ->
  exists r tok,
    POST env w request = (Normal r, [EvGetUser tok; EvProfilesSingle (id u)])
    /\ (status r = 404%N \/ status r = 403%N)
    /\ token_of r = None.
Proof.
  intros Ha Hl Hc.
  destruct (profileError pr) as [e|] eqn:He.
  - destruct (POST_not_found w request u pr Ha Hl) as (tok & Heq).
    { left. congruence. }
    eexists _, tok. split; [exact Heq|]. split; [now left | reflexivity].
  - destruct Hc as [Hn | (p & Hp & Hpaid)].
    + destruct (POST_not_found w request u pr Ha Hl) as (tok & Heq).
      { now right. }
      eexists _, tok. split; [exact Heq|]. split; [now left | reflexivity].
    + destruct pr as [pf pe]; simpl in *; subst.
      destruct (POST_forbidden w request u p Ha Hl Hpaid) as (tok & Heq).
      eexists _, tok. split; [exact Heq|]. split; [now right | reflexivity].
Qed.

(** Every call that passes the session check asks the [profiles] table. *)
Lemma POST_reads_profile (w : ServerWorld) (request : NextRequest) (u : User) :
  authenticates w request u ->
  existsb (is_profile_read (id u)) (snd (POST env w request)) = true.
Proof.
  intros (h & Hh & Hp & Hu).
  destruct (POST env w request) as [c tr] eqn:H.
  unfold POST in H. rewrite Hh, Hp in H.
  rewrite (startsWith_truthy h "Bearer ") in H by (congruence || exact Hp).
  rewrite Hu in H. POST_split H.
  all: inversion H; subst; simpl; rewrite String.eqb_refl; reflexivity.
Qed.

(** C1. In a process that serves any sequence of calls, a call whose
    session resolves to a user always looks the user's profile up, and when
    that lookup shows no record or a record whose [has_paid] is not true
    the call is answered 404 or 403 without a token and without any
    signing, whatever the earlier calls of the process saw. *)
Theorem no_token_without_entitlement
  (calls : list (ServerWorld * NextRequest)) (k : nat)
  (w : ServerWorld) (request : NextRequest) (u : User) :
  nth_error calls k = Some (w, request) ->
  authenticates w request u ->
  exists res,
    nth_error (serve env calls) k = Some res
    /\ existsb (is_profile_read (id u)) (snd res) = true
    /\ forall pr,
        profiles_single w (id u) = Resolved pr ->
        absent_or_unpaid pr ->
        exists r,
          fst res = Normal r
          /\ (status r = 404%N \/ status r = 403%N)
          /\ token_of r = None
          /\ existsb is_sign (snd res) = false.
Proof.
  intros Hk Ha. exists (POST env w request). split; [|split].
  - unfold serve. rewrite nth_error_map, Hk. reflexivity.
  - apply POST_reads_profile, Ha.
  - intros pr Hl Hc.
    destruct (POST_not_entitled w request u pr Ha Hl Hc)
      as (r & tok & Heq & Hst & Htok).
    exists r. rewrite Heq. auto.
Qed.

(** The checks a call has passed when it is answered 400 or 200. *)
Lemma POST_passes_checks (w : ServerWorld) (request : NextRequest)
  (r : NextResponse) (tr : list server_event) :
  POST env w request = (Normal r, tr) ->
  status r = 400%N \/ status r = 200%N ->
  exists u p,
    authenticates w request u /\
    profiles_single w (id u)
    = Resolved {| profile := Some p; profileError := None |} /\
    has_paid p = Some true /\
    existsb is_body_read tr = true.
Proof.
  intros H Hs. POST_split H.
  all: inversion H; subst; clear H; simpl in Hs.
  all: try (destruct Hs; discriminate).
  all: match goal with
       | Hu : user ?a = Some ?u, Hp : profile ?a0 = Some ?p |- _ =>
           exists u, p; destruct a, a0; simpl in *; subst
       end.
  all: split; [|split; [|split]];
    [ eexists; split; [|split]; eassumption
    | assumption
    | now apply truthy_obool_true
    | reflexivity ].
Qed.

(** C9. The session and entitlement checks come before the body is read:
    an unauthenticated request is answered 401 and a request of a user
    without entitlement 404 or 403 whatever the body is, the body being
    left unread; and an answer 400 is given only to a caller whose session
    resolved and whose profile has [has_paid] true. *)
Theorem checks_precede_body (w : ServerWorld) (request : NextRequest) :
  (unauthenticated w request ->
   forall b, exists msg tr,
     POST env w (with_body request b)
     = (Normal {| body := ErrorBody msg; status := 401 |}, tr)
     /\ existsb is_body_read tr = false)
  /\ (forall u pr,
       authenticates w request u ->
       profiles_single w (id u) = Resolved pr ->
       absent_or_unpaid pr ->
       forall b, exists r tr,
         POST env w (with_body request b) = (Normal r, tr)
         /\ (status r = 404%N \/ status r = 403%N)
         /\ existsb is_body_read tr = false)
  /\ (forall r tr,
       POST env w request = (Normal r, tr) ->
       status r = 400%N ->
       existsb is_body_read tr = true
       /\ exists u p,
           authenticates w request u
           /\ profiles_single w (id u)
              = Resolved {| profile := Some p; profileError := None |}
           /\ has_paid p = Some true).
Proof.
  split; [|split].
  - intros Hu b.
    destruct (POST_unauthenticated w _ (unauthenticated_with_body w _ b Hu))
      as (msg & tr & Heq & Htr).
    exists msg, tr. split; [exact Heq|].
    destruct Htr as [-> | [tok ->]]; reflexivity.
  - intros u pr Ha Hl Hc b.
    destruct (POST_not_entitled w _ u pr
                (authenticates_with_body w _ b u Ha) Hl Hc)
      as (r & tok & Heq & Hst & _).
    exists r. eexists. split; [exact Heq|]. split; [exact Hst | reflexivity].
  - intros r tr H Hs.
    destruct (POST_passes_checks w request r tr H (or_introl Hs))
      as (u & p & Ha & Hl & Hp & Hb).
    split; [exact Hb|]. exists u, p. auto.
Qed.

(** C10. For a caller whose session resolves and whose profile is paid, a
    body that is absent or is not JSON makes [request.json()] reject; the
    handler catches the exception and answers 500 with its generic
    message, not 400. *)
Theorem unparsable_body_is_internal
  (w : ServerWorld) (request : NextRequest) (u : User) (p : Profile)
  (reason : string) :
  authenticates w request u ->
  profiles_single w (id u)
  = Resolved {| profile := Some p; profileError := None |} ->
  has_paid p = Some true ->
  request_json request = Rejected reason ->
  exists tok,
    POST env w request
    = (Normal {| body := ErrorBody "토큰 생성에 실패했습니다."; status := 500 |},
       [EvGetUser tok; EvProfilesSingle (id u); EvRequestJson;
        EvConsoleError "비디오 토큰 생성 오류:" reason])
    /\ status_of (POST env w request) <> Some 400%N.
Proof.
  intros Ha Hl Hp Hb.
  assert (exists tok,
    POST env w request
    = (Normal {| body := ErrorBody "토큰 생성에 실패했습니다."; status := 500 |},
       [EvGetUser tok; EvProfilesSingle (id u); EvRequestJson;
        EvConsoleError "비디오 토큰 생성 오류:" reason])) as (tok & Heq).
  { enter_POST Ha. rewrite Hl. cbn [await bind profile profileError].
    rewrite Hp, Hb. simpl. eexists. reflexivity. }
  exists tok. split; [exact Heq|]. rewrite Heq. discriminate.
Qed.

(** C2. For every call that is answered 200 and whose body carries a
    string [videoId] (the request contract is [{ videoId: string }]): the
    string is not empty, the token's [sub] is that [videoId], its [exp] is
    the mint time in seconds ([Date.now()] divided by 1000, rounded down)
    plus 3600, and the body of the answer carries the token, the same
    [videoId], the customer subdomain and [expiresIn] = 3600. *)
Theorem minted_token_claims (w : ServerWorld) (request : NextRequest)
  (r : NextResponse) (tr : list server_event) (b : json) (s : string) :
  POST env w request = (Normal r, tr) ->
  status r = 200%N ->
  request_json request = Resolved b ->
  get_property b "videoId" = Some (Some (JStr s)) ->
  s <> ""
  /\ exists tok,
      body r
      = TokenBody tok (JStr s) (CF_STREAM_CUSTOMER_SUBDOMAIN env) 3600
      /\ sub (payload tok) = JStr s
      /\ exp (payload tok) = (Date_now w / 1000 + 3600)%N
      /\ kid (payload tok) = CF_STREAM_KEY_ID env
      /\ alg (protectedHeader tok) = "RS256".
Proof.
  intros H Hs Hb Hv. POST_split H.
  all: inversion H; subst; clear H; simpl in Hs; try discriminate Hs.
  injection Hb as ->.
  match goal with
  | E : get_property b "videoId" = Some (Some ?j) |- _ =>
      rewrite E in Hv; injection Hv as ->
  end.
  split.
  - intros ->. discriminate.
  - eexists. repeat split.
Qed.

(** The expiration, read in milliseconds, lies within one second below
    [Date.now()] plus one hour. *)
Lemma expiration_in_ms (now : N) :
  (now + 3600000 - 1000 < (now / 1000 + 3600) * 1000 <= now + 3600000)%N.
Proof.
  pose proof (N.div_mod now 1000 ltac:(discriminate)) as Hd.
  pose proof (N.mod_lt now 1000 ltac:(discriminate)) as Hm.
  set (q := (now / 1000)%N) in *. set (m := (now mod 1000)%N) in *.
  clearbody q m. lia.
Qed.

(** C4, as the code has it.  For a caller whose session resolves, a lookup
    that resolves is answered 404 exactly when it carries an error or no
    record; 500 is the answer when the lookup call itself throws. *)
Theorem lookup_error_is_not_found
  (w : ServerWorld) (request : NextRequest) (u : User) :
  authenticates w request u ->
  (forall pr,
     profiles_single w (id u) = Resolved pr ->
     (status_of (POST env w request) = Some 404%N
      <-> profileError pr <> None \/ profile pr = None))
  /\ (forall reason,
       profiles_single w (id u) = Rejected reason ->
       status_of (POST env w request) = Some 500%N).
Proof.
  intros Ha. split.
  - intros pr Hl. split.
    + intros Hst.
      destruct (profileError pr) as [e|] eqn:He; [left; discriminate|].
      destruct (profile pr) as [p|] eqn:Hp; [|now right].
      exfalso. destruct Ha as (h & Hh & Hp' & Hu).
      destruct (POST env w request) as [c tr] eqn:H.
      unfold POST in H. rewrite Hh, Hp' in H.
      rewrite (startsWith_truthy h "Bearer ") in H by (congruence || exact Hp').
      rewrite Hu in H. cbn [negb orb await bind user userError id] in H.
      rewrite Hl in H. cbn [await bind] in H. rewrite He, Hp in H.
      POST_split H.
      all: inversion H; subst; discriminate Hst.
    + intros Hc.
      destruct (POST_not_found w request u pr Ha Hl Hc) as (tok & Heq).
      rewrite Heq. reflexivity.
  - intros reason Hl.
    destruct (POST_lookup_rejected w request u reason Ha Hl) as (tr & Heq).
    rewrite Heq. reflexivity.
Qed.

(** Where the key is built on each path through the handler. *)
Lemma POST_key_loads (w : ServerWorld) (request : NextRequest)
  (r : NextResponse) (tr : list server_event) :
  POST env w request = (Normal r, tr) ->
  (status r = 200%N -> key_loads tr = 1)
  /\ (status r = 401%N \/ status r = 403%N \/ status r = 404%N
      \/ status r = 400%N -> key_loads tr = 0)
  /\ key_loads tr <= 1
  /\ (forall pemKey,
       In (EvCreatePrivateKey pemKey) tr ->
       pemKey = base64_to_utf8 w (CF_STREAM_SIGNING_KEY_BASE64 env)).
Proof.
  intros H. POST_split H.
  all: inversion H; subst; clear H; simpl.
  all: split; [intros Hs; try reflexivity; discriminate Hs|].
  all: split;
    [ intros Hs; try reflexivity;
      destruct Hs as [Hs|[Hs|[Hs|Hs]]]; discriminate Hs |].
  all: split; [unfold key_loads; simpl; lia|].
  all: intros pemKey Hin;
    repeat (destruct Hin as [Hin|Hin];
            [try discriminate Hin; injection Hin; auto|]);
    contradiction.
Qed.

(** C8, as the code has it.  [getPrivateKey] runs inside the handler: a
    call answered 200 has built the key exactly once, a call answered 401,
    403, 404 or 400 has not built it, and what is decoded is always the
    module constant [CF_STREAM_SIGNING_KEY_BASE64]. *)
Theorem key_loaded_by_each_mint (w : ServerWorld) (request : NextRequest)
  (r : NextResponse) (tr : list server_event) :
  POST env w request = (Normal r, tr) ->
  (status r = 200%N -> key_loads tr = 1)
  /\ (status r = 401%N \/ status r = 403%N \/ status r = 404%N
      \/ status r = 400%N -> key_loads tr = 0)
  /\ (forall pemKey,
       In (EvCreatePrivateKey pemKey) tr ->
       pemKey = base64_to_utf8 w (CF_STREAM_SIGNING_KEY_BASE64 env)).
Proof.
  intros H. destruct (POST_key_loads w request r tr H) as (A & B & _ & C).
  auto.
Qed.

(** X11. Over a whole process run there are at least as many key loads as
    tokens handed out, and at most one per call. *)
Lemma key_loads_of_process (calls : list (ServerWorld * NextRequest)) :
  length (filter is_success (serve env calls))
  <= total_key_loads (serve env calls) <= length calls.
Proof.
  unfold total_key_loads.
  induction calls as [|[w request] calls IH]; simpl; [lia|].
  destruct (POST_total w request) as (r & tr & Heq).
  destruct (POST_key_loads w request r tr Heq) as (H200 & _ & Hle & _).
  rewrite Heq in *. cbn [snd].
  destruct (is_success (Normal r, tr)) eqn:Hs; simpl; [|lia].
  unfold is_success, status_of in Hs. simpl in Hs.
  apply N.eqb_eq in Hs. rewrite (H200 Hs). lia.
Qed.

End TokenRoute.

(** ** The player component *)


Lemma append_assoc (a b c : string) : (a ++ b) ++ c = a ++ (b ++ c).
Proof. induction a as [|x a IH]; simpl; [reflexivity | now rewrite IH]. Qed.







Lemma paid_but_unrecorded_not_failed (m : option string) :
  alert_paid_but_unrecorded <> alert_payment_failed m.
Proof. unfold alert_payment_failed. simpl. discriminate. Qed.

Section VideoPlayerWithAuth.

Variable cenv : ClientEnv.
Variable props : Props.



(** The contact-support alert is shown on one path only. *)
Lemma contact_support_alert_inv (w : ClientWorld) :
  alerts (snd (handlePayment cenv props w))
  = ["결제는 완료되었으나 프로필 업데이트에 실패했습니다. 고객센터에 문의해주세요."] ->
  exists ur u response up e,
    session_getUser w = Resolved ur
    /\ user ur = Some u
    /\ requestPayment w (request_for cenv props w u) = Resolved response
    /\ response_code_truthy response = false
    /\ profiles_upsert w (id u) true = Resolved up
    /\ updateError up = Some e.
Proof.
  destruct (handlePayment cenv props w) as [c tr] eqn:H.
  unfold handlePayment, request_for in H.
  destruct (session_getUser w) as [ur|] eqn:Hu; simpl in H.
  2:{ inversion H; subst. simpl. discriminate. }
  destruct (user ur) as [u|] eqn:Hus; simpl in H.
  2:{ inversion H; subst. simpl. discriminate. }
  match type of H with
  | context [requestPayment w ?q] =>
      destruct (requestPayment w q) as [response|] eqn:Hr
  end; simpl in H.
  2:{ inversion H; subst. simpl. discriminate. }
  destruct (response_code_truthy response) eqn:Hc; simpl in H.
  { inversion H; subst. simpl. discriminate. }
  destruct (profiles_upsert w (id u) true) as [up|] eqn:Hup; simpl in H.
  2:{ inversion H; subst. simpl. discriminate. }
  destruct (updateError up) as [e|] eqn:He; simpl in H.
  2:{ inversion H; subst. simpl. discriminate. }
  intros _. exists ur, u, response, up, e. unfold request_for. auto 10.
Qed.

Lemma handlePayment_unrecorded (w : ClientWorld) (ur : UserResponse)
  (u : User) (response : option PaymentResponse) (up : UpsertResponse)
  (e : string) :
  session_getUser w = Resolved ur ->
  user ur = Some u ->
  requestPayment w (request_for cenv props w u) = Resolved response ->
  response_code_truthy response = false ->
  profiles_upsert w (id u) true = Resolved up ->
  updateError up = Some e ->
  handlePayment cenv props w
  = (Normal tt,
     [CSetIsProcessing true; CGetUser; CRequestPayment (request_for cenv props w u);
      CProfilesUpsert (id u) true; CConsoleError "프로필 업데이트 오류:" e;
      CAlert alert_paid_but_unrecorded; CSetIsProcessing false]).
Proof.
  intros Hu Hus Hr Hc Hup He. unfold handlePayment, request_for in *.
  rewrite Hu. cbn [await bind emit try_catch]. rewrite Hus.
  rewrite Hr. cbn [await bind]. rewrite Hc, Hup. cbn [await bind].
  rewrite He. reflexivity.
Qed.

(** C7. When the charge succeeded and the upsert answers with an error,
    the handler logs the update error and shows one alert, the
    contact-support message quoted below, and does not reload.  No other
    path of the handler shows that alert: it appears only after a
    successful charge whose upsert answered with an error.  Its text is
    neither the payment-failure text (whatever PortOne's message), nor the
    text of the generic error path, nor the success text. *)
Theorem paid_but_unrecorded_is_distinct (w : ClientWorld)
  (ur : UserResponse) (u : User) (response : option PaymentResponse)
  (up : UpsertResponse) (e : string) :
  session_getUser w = Resolved ur ->
  user ur = Some u ->
  requestPayment w (request_for cenv props w u) = Resolved response ->
  response_code_truthy response = false ->
  profiles_upsert w (id u) true = Resolved up ->
  updateError up = Some e ->
  handlePayment cenv props w
  = (Normal tt,
     [CSetIsProcessing true; CGetUser;
      CRequestPayment (request_for cenv props w u);
      CProfilesUpsert (id u) true;
      CConsoleError "프로필 업데이트 오류:" e;
      CAlert "결제는 완료되었으나 프로필 업데이트에 실패했습니다. 고객센터에 문의해주세요.";
      CSetIsProcessing false])
  /\ alerts (snd (handlePayment cenv props w))
     = ["결제는 완료되었으나 프로필 업데이트에 실패했습니다. 고객센터에 문의해주세요."]
  /\ In (CConsoleError "프로필 업데이트 오류:" e)
       (snd (handlePayment cenv props w))
  /\ ~ In CReload (snd (handlePayment cenv props w))
  /\ (forall w',
       alerts (snd (handlePayment cenv props w'))
       = ["결제는 완료되었으나 프로필 업데이트에 실패했습니다. 고객센터에 문의해주세요."] ->
       exists ur' u' response' up' e',
         session_getUser w' = Resolved ur'
         /\ user ur' = Some u'
         /\ requestPayment w' (request_for cenv props w' u')
            = Resolved response'
         /\ response_code_truthy response' = false
         /\ profiles_upsert w' (id u') true = Resolved up'
         /\ updateError up' = Some e')
  /\ (forall m,
       "결제는 완료되었으나 프로필 업데이트에 실패했습니다. 고객센터에 문의해주세요."
       <> "결제 실패: " ++ template_ostring m)
  /\ "결제는 완료되었으나 프로필 업데이트에 실패했습니다. 고객센터에 문의해주세요."
     <> "결제 처리 중 오류가 발생했습니다."
  /\ "결제는 완료되었으나 프로필 업데이트에 실패했습니다. 고객센터에 문의해주세요."
     <> "결제 완료!".
Proof.
  intros Hu Hus Hr Hc Hup He.
  rewrite (handlePayment_unrecorded w ur u response up e Hu Hus Hr Hc Hup He).
  split; [reflexivity|]. split; [reflexivity|]. split; [simpl; tauto|].
  split.
  { simpl. intros H. repeat (destruct H as [H|H]; [discriminate H|]).
    exact H. }
  split; [exact contact_support_alert_inv|].
  split; [exact paid_but_unrecorded_not_failed|].
  split; discriminate.
Qed.

(** C5. One evaluation of the state machine: an identity answer with an
    error or without a user gives [not_logged_in]; with a user, a lookup
    that carries an error, no record, or a [has_paid] that is not true
    gives [not_paid]; [paid] is the result exactly when the identity and
    the lookup both resolve without error and [has_paid] is true. *)
Theorem checkAuth_fail_closed (w : ClientWorld) :
  (forall ur,
     session_getUser w = Resolved ur ->
     userError ur <> None \/ user ur = None ->
     evaluate w = not_logged_in)
  /\ (forall u pr,
       session_getUser w
       = Resolved {| user := Some u; userError := None |} ->
       client_profiles_single w (id u) = Resolved pr ->
       profileError pr <> None \/ absent_or_unpaid pr ->
       evaluate w = not_paid)
  /\ (evaluate w = paid <->
      exists u p,
        session_getUser w
        = Resolved {| user := Some u; userError := None |}
        /\ client_profiles_single w (id u)
           = Resolved {| profile := Some p; profileError := None |}
        /\ has_paid p = Some true).
Proof.
  unfold evaluate, checkAuth. split; [|split].
  - intros ur Hu Hc. rewrite Hu. apply userError_cases in Hc. simpl.
    destruct (userError ur), (user ur); try contradiction; reflexivity.
  - intros u pr Hu Hl Hc. rewrite Hu. cbn [await bind user userError].
    rewrite Hl. simpl.
    destruct pr as [[[[[|]|]]|] [e|]]; simpl; try reflexivity.
    exfalso. destruct Hc as [Hc | [Hc | (p & Hp & Hpaid)]]; simpl in *;
      try congruence.
    injection Hp as <-. simpl in Hpaid. congruence.
  - split.
    + destruct (session_getUser w) as [[[u|] [e|]]|] eqn:Hu; simpl;
        try discriminate.
      destruct (client_profiles_single w (id u))
        as [[[[[[|]|]]|] [e|]]|] eqn:Hl; simpl; try discriminate.
      intros _. eexists _, _.
      split; [reflexivity | split; [exact Hl | reflexivity]].
    + intros (u & p & Hu & Hl & Hp). rewrite Hu. simpl. rewrite Hl. simpl.
      rewrite Hp. reflexivity.
Qed.

End VideoPlayerWithAuth.

(** ** Concrete runs *)

Lemma unauthorized_whatever_entitlement_witness :
  unauthenticated (sample_world paid_row)
    {| authorization := Some "Basic good"; request_json := video_body |}
  /\ exists msg tr,
    POST sample_env (sample_world paid_row)
      {| authorization := Some "Basic good"; request_json := video_body |}
    = (Normal {| body := ErrorBody msg; status := 401 |}, tr)
    /\ existsb is_lookup tr = false
    /\ forall f,
        POST sample_env (with_profiles (sample_world paid_row) f)
          {| authorization := Some "Basic good"; request_json := video_body |}
        = POST sample_env (sample_world paid_row)
            {| authorization := Some "Basic good"; request_json := video_body |}.
Proof.
  assert (H : unauthenticated (sample_world paid_row)
    {| authorization := Some "Basic good"; request_json := video_body |}).
  { apply (header_not_bearer _ _ "Basic good"); reflexivity. }
  split; [exact H|].
  apply (unauthorized_whatever_entitlement sample_env _ _ H).
Defined.

(** The sample session resolves to [alice] whatever the table and the
    body are. *)
Lemma sample_authenticates (pr : awaited ProfileResponse) (b : awaited json) :
  authenticates (sample_world pr) (sample_request b) alice.
Proof. exists "Bearer good". repeat split. Defined.

(** A token is handed out while the row is paid; once the row says unpaid
    the next call of the same process is answered 403. *)
Lemma no_token_without_entitlement_witness :
  (exists res0, nth_error (serve sample_env revocation_calls) 0 = Some res0
                /\ is_success res0 = true)
  /\ exists res,
      nth_error (serve sample_env revocation_calls) 1 = Some res
      /\ existsb (is_profile_read (id alice)) (snd res) = true
      /\ exists r,
          fst res = Normal r
          /\ (status r = 404%N \/ status r = 403%N)
          /\ token_of r = None
          /\ existsb is_sign (snd res) = false.
Proof.
  split.
  - eexists. split; reflexivity.
  - destruct (no_token_without_entitlement sample_env revocation_calls 1
                (sample_world unpaid_row) (sample_request video_body) alice
                eq_refl (sample_authenticates _ _))
      as (res & Hres & Hread & Hrest).
    exists res. split; [exact Hres|]. split; [exact Hread|].
    apply (Hrest {| profile := Some {| has_paid := Some false |};
                    profileError := None |} eq_refl).
    right. eexists. split; [reflexivity | discriminate].
Defined.

Lemma minted_token_claims_witness :
  exists r tr,
    POST sample_env (sample_world paid_row) (sample_request video_body)
    = (Normal r, tr)
    /\ status r = 200%N
    /\ "vid123" <> ""
    /\ exists tok,
        body r
        = TokenBody tok (JStr "vid123")
            (CF_STREAM_CUSTOMER_SUBDOMAIN sample_env) 3600
        /\ sub (payload tok) = JStr "vid123"
        /\ exp (payload tok) = (1700000000 + 3600)%N
        /\ kid (payload tok) = CF_STREAM_KEY_ID sample_env
        /\ alg (protectedHeader tok) = "RS256".
Proof.
  eexists _, _. split; [reflexivity|]. split; [reflexivity|].
  exact (minted_token_claims sample_env (sample_world paid_row)
           (sample_request video_body) _ _
           (JObj [("videoId", JStr "vid123")]) "vid123"
           eq_refl eq_refl eq_refl eq_refl).
Defined.

(** C4, refuted as stated: the store holds a paid row for the user but
    cannot be reached; the lookup resolves with the transport error and
    the call is answered 404, not 500. *)
Lemma lookup_error_answered_404 :
  find_row (id alice) (rows unreachable_store)
  = Some {| has_paid := Some true |}
  /\ status_of (POST sample_env unreachable_world
                  (sample_request video_body)) = Some 404%N
  /\ ~ lookup_failure_is_internal
  /\ ~ not_found_only_without_row.
Proof.
  split; [reflexivity|]. split; [reflexivity|]. split.
  - intros H.
    specialize (H sample_env unreachable_world (sample_request video_body)
                  alice
                  {| profile := None;
                     profileError := Some "TypeError: fetch failed" |}
                  "TypeError: fetch failed"
                  (sample_authenticates _ _) eq_refl eq_refl).
    discriminate H. discriminate.
  - intros H.
    specialize (H sample_env unreachable_world unreachable_store
                  (sample_request video_body) alice eq_refl
                  (sample_authenticates _ _) eq_refl).
    discriminate H.
Qed.

Lemma lookup_error_is_not_found_witness :
  authenticates unreachable_world (sample_request video_body) alice
  /\ status_of (POST sample_env unreachable_world
                  (sample_request video_body)) = Some 404%N.
Proof.
  split; [exact (sample_authenticates paid_row video_body)|].
  destruct (lookup_error_is_not_found sample_env unreachable_world
              (sample_request video_body) alice
              (sample_authenticates paid_row video_body))
    as [H _].
  apply (H {| profile := None;
              profileError := Some "TypeError: fetch failed" |} eq_refl).
  left. discriminate.
Defined.

(** C8, refuted as stated: a mint call builds the key itself, and two
    mints of one process build it twice. *)
Lemma mint_call_loads_key :
  key_loads (snd (POST sample_env (sample_world paid_row)
                    (sample_request video_body))) = 1
  /\ total_key_loads
       (serve sample_env
          [(sample_world paid_row, sample_request video_body);
           (sample_world paid_row, sample_request video_body)]) = 2
  /\ ~ mint_never_loads_key.
Proof.
  split; [reflexivity|]. split; [reflexivity|]. intros H.
  specialize (H sample_env (sample_world paid_row)
                (sample_request video_body)).
  discriminate H.
Qed.

Lemma key_loaded_by_each_mint_witness :
  exists r tr,
    POST sample_env (sample_world paid_row) (sample_request video_body)
    = (Normal r, tr)
    /\ status r = 200%N
    /\ key_loads tr = 1
    /\ forall pemKey,
        In (EvCreatePrivateKey pemKey) tr ->
        pemKey = base64_to_utf8 (sample_world paid_row)
                   (CF_STREAM_SIGNING_KEY_BASE64 sample_env).
Proof.
  eexists _, _. split; [reflexivity|]. split; [reflexivity|].
  destruct (key_loaded_by_each_mint sample_env (sample_world paid_row)
              (sample_request video_body) _ _ eq_refl) as (H200 & _ & Hpem).
  split; [exact (H200 eq_refl) | exact Hpem].
Defined.

Lemma checks_precede_body_witness :
  (forall b, exists msg tr,
     POST sample_env (sample_world paid_row)
       (with_body {| authorization := None; request_json := video_body |} b)
     = (Normal {| body := ErrorBody msg; status := 401 |}, tr)
     /\ existsb is_body_read tr = false)
  /\ (forall b, exists r tr,
       POST sample_env (sample_world no_row)
         (with_body (sample_request video_body) b)
       = (Normal r, tr)
       /\ (status r = 404%N \/ status r = 403%N)
       /\ existsb is_body_read tr = false)
  /\ (existsb is_body_read
        (snd (POST sample_env (sample_world paid_row)
                (sample_request (Resolved (JObj [("videoId", JStr "")])))))
      = true
      /\ exists u p,
          authenticates (sample_world paid_row)
            (sample_request (Resolved (JObj [("videoId", JStr "")]))) u
          /\ profiles_single (sample_world paid_row) (id u)
             = Resolved {| profile := Some p; profileError := None |}
          /\ has_paid p = Some true).
Proof.
  split; [|split].
  - apply (proj1 (checks_precede_body sample_env (sample_world paid_row)
                    {| authorization := None; request_json := video_body |})).
    apply header_missing. reflexivity.
  - apply (proj1 (proj2 (checks_precede_body sample_env (sample_world no_row)
                           (sample_request video_body)))
             alice
             {| profile := None; profileError := Some "PGRST116" |}
             (sample_authenticates _ _) eq_refl).
    left. reflexivity.
  - apply (proj2 (proj2 (checks_precede_body sample_env
                           (sample_world paid_row)
                           (sample_request
                              (Resolved (JObj [("videoId", JStr "")])))))
             _ _ eq_refl eq_refl).
Defined.

Lemma unparsable_body_is_internal_witness :
  exists tok,
    POST sample_env (sample_world paid_row) truncated_request
    = (Normal {| body := ErrorBody "토큰 생성에 실패했습니다."; status := 500 |},
       [EvGetUser tok; EvProfilesSingle (id alice); EvRequestJson;
        EvConsoleError "비디오 토큰 생성 오류:"
          "SyntaxError: Unexpected end of JSON input"])
    /\ status_of (POST sample_env (sample_world paid_row) truncated_request)
       <> Some 400%N.
Proof.
  exact (unparsable_body_is_internal sample_env (sample_world paid_row)
           truncated_request alice {| has_paid := Some true |}
           "SyntaxError: Unexpected end of JSON input"
           (sample_authenticates _ _) eq_refl eq_refl eq_refl).
Defined.


Lemma paid_but_unrecorded_is_distinct_witness :
  handlePayment sample_cenv sample_props unrecorded_client
  = (Normal tt,
     [CSetIsProcessing true; CGetUser;
      CRequestPayment
        (request_for sample_cenv sample_props unrecorded_client alice);
      CProfilesUpsert "user-1" true;
      CConsoleError "프로필 업데이트 오류:"
        "permission denied for table profiles";
      CAlert "결제는 완료되었으나 프로필 업데이트에 실패했습니다. 고객센터에 문의해주세요.";
      CSetIsProcessing false])
  /\ alerts (snd (handlePayment sample_cenv sample_props unrecorded_client))
     = ["결제는 완료되었으나 프로필 업데이트에 실패했습니다. 고객센터에 문의해주세요."]
  /\ ~ In CReload
         (snd (handlePayment sample_cenv sample_props unrecorded_client)).
Proof.
  destruct (paid_but_unrecorded_is_distinct sample_cenv sample_props
              unrecorded_client
              {| user := Some alice; userError := None |} alice
              (Some {| code := None; message := None |})
              {| updateError := Some "permission denied for table profiles" |}
              "permission denied for table profiles"
              eq_refl eq_refl eq_refl eq_refl eq_refl eq_refl)
    as (Hrun & Halerts & _ & Hreload & _).
  split; [exact Hrun|]. split; [exact Halerts | exact Hreload].
Defined.

Lemma checkAuth_fail_closed_witness :
  evaluate anonymous_client = not_logged_in
  /\ evaluate (sample_client store_down payment_ok upsert_ok) = not_paid
  /\ evaluate (sample_client no_row payment_ok upsert_ok) = not_paid
  /\ evaluate (sample_client unpaid_row payment_ok upsert_ok) = not_paid
  /\ evaluate (sample_client paid_row payment_ok upsert_ok) = paid.
Proof.
  split; [|split; [|split; [|split]]].
  - apply (proj1 (checkAuth_fail_closed anonymous_client)
             {| user := None; userError := Some "Auth session missing!" |}
             eq_refl).
    left. discriminate.
  - apply (proj1 (proj2 (checkAuth_fail_closed
                           (sample_client store_down payment_ok upsert_ok)))
             alice
             {| profile := None;
                profileError := Some "TypeError: fetch failed" |}
             eq_refl eq_refl).
    left. discriminate.
  - apply (proj1 (proj2 (checkAuth_fail_closed
                           (sample_client no_row payment_ok upsert_ok)))
             alice {| profile := None; profileError := Some "PGRST116" |}
             eq_refl eq_refl).
    right. left. reflexivity.
  - apply (proj1 (proj2 (checkAuth_fail_closed
                           (sample_client unpaid_row payment_ok upsert_ok)))
             alice
             {| profile := Some {| has_paid := Some false |};
                profileError := None |}
             eq_refl eq_refl).
    right. right. eexists. split; [reflexivity | discriminate].
  - apply (proj2 (proj2 (checkAuth_fail_closed
                           (sample_client paid_row payment_ok upsert_ok)))).
    exists alice, {| has_paid := Some true |}. repeat split.
Defined.

(** * Further properties of the token route *)

Lemma prefix_drop (p s : string) :
  String.prefix p s = true -> p ++ string_drop (String.length p) s = s.
Proof.
  revert s. induction p as [|a p IH]; intros s H; [reflexivity|].
  destruct s as [|c s]; [discriminate H|]. simpl in H |- *.
  destruct (Ascii.ascii_dec a c) as [->|]; [|discriminate H].
  now rewrite IH.
Qed.

Lemma bearer_round_trip (h : string) :
  startsWith h "Bearer " = true -> "Bearer " ++ replace h "Bearer " "" = h.
Proof.
  intros H. rewrite (replace_prefix h "Bearer " "" H).
  exact (prefix_drop "Bearer " h H).
Qed.

Lemma bearer_strip (tok : string) :
  startsWith ("Bearer " ++ tok) "Bearer " = true
  /\ replace ("Bearer " ++ tok) "Bearer " "" = tok.
Proof.
  assert (H : startsWith ("Bearer " ++ tok) "Bearer " = true).
  { unfold startsWith. simpl. destruct tok; reflexivity. }
  split; [exact H|]. rewrite (replace_prefix _ _ _ H). reflexivity.
Qed.

(** X1. Every call is answered, with one of six status codes; the body holds
    a token exactly when the status is 200 and an error message
    otherwise. *)
Theorem POST_status_and_body (env : Env) (w : ServerWorld)
  (request : NextRequest) :
  exists r tr,
    POST env w request = (Normal r, tr)
    /\ In (status r) [200; 400; 401; 403; 404; 500]%N
    /\ (status r = 200%N <-> token_of r <> None)
    /\ (status r = 200%N \/ exists msg, body r = ErrorBody msg).
Proof.
  destruct (POST env w request) as [[r|e] tr] eqn:H.
  - exists r, tr. split; [reflexivity|]. POST_split H.
    all: inversion H; subst; clear H; unfold token_of; simpl.
    all: split; [tauto|].
    all: split; [split; intros; congruence || discriminate|].
    all: try (left; reflexivity); right; eexists; reflexivity.
  - POST_split H; discriminate H.
Qed.

(** X2. A call is answered 500 exactly when the handler logged an exception
    with [console.error]; the body is then the fixed message, whatever was
    thrown, and the log entry is the last event of the call. *)
Theorem internal_error_is_logged (env : Env) (w : ServerWorld)
  (request : NextRequest) :
  (status_of (POST env w request) = Some 500%N
   <-> existsb is_console_error (snd (POST env w request)) = true)
  /\ (status_of (POST env w request) = Some 500%N ->
      exists tr reason,
        POST env w request
        = (Normal {| body := generic_error_body; status := 500 |},
           (tr ++ [EvConsoleError "비디오 토큰 생성 오류:" reason])%list)
        /\ existsb is_console_error tr = false).
Proof.
  destruct (POST env w request) as [c tr] eqn:H. unfold status_of.
  POST_split H.
  all: inversion H; subst; clear H; simpl.
  all: split; [split; intros E; congruence || discriminate E|].
  all: intros E; try discriminate E.
  all: match goal with
       | |- exists t reason, (_, ?l) = _ /\ _ =>
           exists (removelast l); eexists;
           split; [reflexivity | reflexivity]
       end.
Qed.

(** X3. The steps of a call are taken in one order, each at most once, and
    none is taken unless all the earlier ones were: session, profile,
    body, key, signature; an exception is logged last. *)
Theorem POST_steps_in_order (env : Env) (w : ServerWorld)
  (request : NextRequest) :
  exists n,
    n <= 5
    /\ (map step_of (snd (POST env w request)) = seq 0 n
        \/ map step_of (snd (POST env w request)) = (seq 0 n ++ [5])%list).
Proof.
  destruct (POST env w request) as [c tr] eqn:H.
  POST_split H.
  all: inversion H; subst; clear H; simpl.
  all: first
    [ exists 0; split; [lia|]; (left; reflexivity) || (right; reflexivity)
    | exists 1; split; [lia|]; (left; reflexivity) || (right; reflexivity)
    | exists 2; split; [lia|]; (left; reflexivity) || (right; reflexivity)
    | exists 3; split; [lia|]; (left; reflexivity) || (right; reflexivity)
    | exists 4; split; [lia|]; (left; reflexivity) || (right; reflexivity)
    | exists 5; split; [lia|]; (left; reflexivity) || (right; reflexivity) ].
Qed.

Lemma ends_with_whitespace_app (a tok : string) :
  tok <> "" ->
  ends_with_whitespace (a ++ tok) = ends_with_whitespace tok.
Proof.
  intros Hne. induction a as [|c a IH]; [reflexivity|].
  cbn [append ends_with_whitespace]. rewrite IH.
  destruct (a ++ tok) eqn:E; [|reflexivity].
  destruct a; [simpl in E; congruence | discriminate E].
Qed.

(** X4. For a request whose [Authorization] value is as [headers.get]
    returns it, without leading or trailing whitespace: the identity
    provider is asked about [tok] exactly when the header is ["Bearer "]
    followed by [tok], so the token passed on is the header without its
    prefix; that token is never empty and never ends in whitespace. *)
Theorem session_token_is_header_suffix (env : Env) (w : ServerWorld)
  (request : NextRequest) (h tok : string) :
  authorization request = Some h ->
  normalised_header h = true ->
  (In (EvGetUser tok) (snd (POST env w request)) <-> h = "Bearer " ++ tok)
  /\ (In (EvGetUser tok) (snd (POST env w request)) ->
      tok <> "" /\ ends_with_whitespace tok = false).
Proof.
  intros Hh Hn.
  assert (Hiff : In (EvGetUser tok) (snd (POST env w request))
                 <-> h = "Bearer " ++ tok).
  { split.
    - destruct (POST env w request) as [c tr] eqn:H. POST_split H.
      all: inversion H; subst; clear H; simpl; intros Hin.
      all: repeat (destruct Hin as [Hin|Hin]; [try discriminate Hin|]);
        try contradiction.
      all: injection Hin as <-; injection Hh as <-; symmetry;
        now apply bearer_round_trip.
    - intros ->. destruct (bearer_strip tok) as [Hp Hr].
      destruct (POST env w request) as [c tr] eqn:H.
      unfold POST in H. rewrite Hh, Hp in H.
      rewrite (startsWith_truthy _ "Bearer ") in H
        by (congruence || exact Hp).
      rewrite Hr in H. POST_split H.
      all: inversion H; subst; simpl; now left. }
  split; [exact Hiff|].
  intros Hin. apply Hiff in Hin. subst h.
  unfold normalised_header in Hn. apply andb_prop in Hn.
  destruct Hn as [_ He]. apply negb_true_iff in He.
  destruct tok as [|c tok]; [discriminate He|].
  split; [discriminate|].
  rewrite ends_with_whitespace_app in He by discriminate. exact He.
Qed.

(** After the session and the profile have passed, what is left of
    [POST] is decided by the body. *)
Ltac enter_paid Ha Hl Hp :=
  enter_POST Ha; rewrite Hl; cbn [await bind profile profileError];
  rewrite Hp; cbn [truthy_obool negb].

(** X5. For a caller whose session resolves and whose profile is paid, and a
    body that parses: the answer is 400 exactly when the body is not
    [null] and its [videoId] is missing or falsy (an empty string, 0,
    [false], [null]); a body that is a string, a number, a boolean or an
    array has no [videoId] and is answered 400; a [null] body makes the
    destructuring throw and is answered 500. *)
Theorem bad_request_characterised (env : Env) (w : ServerWorld)
  (request : NextRequest) (u : User) (p : Profile) (b : json) :
  authenticates w request u ->
  profiles_single w (id u)
  = Resolved {| profile := Some p; profileError := None |} ->
  has_paid p = Some true ->
  request_json request = Resolved b ->
  (status_of (POST env w request) = Some 400%N
   <-> exists v,
       get_property b "videoId" = Some v
       /\ (v = None \/ exists vid, v = Some vid /\ truthy_json vid = false))
  /\ (b = JNull -> status_of (POST env w request) = Some 500%N)
  /\ (b <> JNull -> (forall members, b <> JObj members) ->
      status_of (POST env w request) = Some 400%N).
Proof.
  intros Ha Hl Hp Hb.
  assert (Hcases :
    match get_property b "videoId" with
    | None => status_of (POST env w request) = Some 500%N
    | Some None => status_of (POST env w request) = Some 400%N
    | Some (Some vid) =>
        if truthy_json vid
        then status_of (POST env w request) <> Some 400%N
        else status_of (POST env w request) = Some 400%N
    end).
  { destruct (POST env w request) as [c tr] eqn:H.
    destruct Ha as (h & Hh & Hp' & Hu).
    unfold POST in H. rewrite Hh, Hp' in H.
    rewrite (startsWith_truthy h "Bearer ") in H by (congruence || exact Hp').
    rewrite Hu in H. cbn [negb orb await bind user userError id] in H.
    rewrite Hl in H. cbn [await bind profile profileError] in H.
    rewrite Hp, Hb in H. cbn [truthy_obool negb await bind] in H.
    destruct (get_property b "videoId") as [[vid|]|] eqn:Hv.
    - destruct (truthy_json vid) eqn:Ht; POST_split H;
        inversion H; subst; unfold status_of; simpl; congruence.
    - simpl in H. inversion H; subst. reflexivity.
    - simpl in H. inversion H; subst. reflexivity. }
  split; [|split].
  - destruct (get_property b "videoId") as [[vid|]|] eqn:Hv.
    + destruct (truthy_json vid) eqn:Ht.
      * split; [intros E; contradiction|].
        intros (v & Hv' & [Hn | (vid' & Hs & Hf)]); injection Hv' as <-;
          congruence.
      * split; [|intros _; exact Hcases].
        intros _. exists (Some vid). split; [reflexivity|]. right. eauto.
    + split; [|intros _; exact Hcases].
      intros _. exists None. split; [reflexivity | now left].
    + split; [rewrite Hcases; discriminate|].
      intros (v & Hv' & _). discriminate Hv'.
  - intros ->. exact Hcases.
  - intros Hn Ho. destruct b; simpl in Hcases; try exact Hcases.
    + contradiction.
    + exfalso. eapply Ho. reflexivity.
Qed.

(** X6. A call that passes every check with a non-empty string
    [videoId], and whose key load and signature succeed, is answered 200
    with the token built from the request: the five steps are taken once
    each, the header is RS256 under the configured key id, [sub] is the
    [videoId], and the signature is the signer's. *)
Theorem mint_succeeds (env : Env) (w : ServerWorld) (request : NextRequest)
  (u : User) (p : Profile) (b : json) (s : string) (key : KeyObject)
  (sig : string) :
  authenticates w request u ->
  profiles_single w (id u)
  = Resolved {| profile := Some p; profileError := None |} ->
  has_paid p = Some true ->
  request_json request = Resolved b ->
  get_property b "videoId" = Some (Some (JStr s)) ->
  s <> "" ->
  createPrivateKey w (base64_to_utf8 w (CF_STREAM_SIGNING_KEY_BASE64 env))
  = Normal key ->
  rs256 w key {| alg := "RS256"; header_kid := CF_STREAM_KEY_ID env |}
    {| sub := JStr s; kid := CF_STREAM_KEY_ID env;
       exp := Date_now w / 1000 + 3600 |}
  = Resolved sig ->
  exists tok,
    POST env w request
    = (Normal
         {| body :=
              TokenBody
                {| protectedHeader :=
                     {| alg := "RS256"; header_kid := CF_STREAM_KEY_ID env |};
                   payload :=
                     {| sub := JStr s; kid := CF_STREAM_KEY_ID env;
                        exp := Date_now w / 1000 + 3600 |};
                   signature := sig |}
                (JStr s) (CF_STREAM_CUSTOMER_SUBDOMAIN env) 3600;
            status := 200 |},
       [EvGetUser tok; EvProfilesSingle (id u); EvRequestJson;
        EvCreatePrivateKey
          (base64_to_utf8 w (CF_STREAM_SIGNING_KEY_BASE64 env));
        EvSign key {| sub := JStr s; kid := CF_STREAM_KEY_ID env;
                      exp := Date_now w / 1000 + 3600 |}]).
Proof.
  intros Ha Hl Hp Hb Hv Hne Hk Hs.
  assert (Ht : truthy_json (JStr s) = true).
  { destruct s; [congruence | reflexivity]. }
  enter_paid Ha Hl Hp. rewrite Hb. cbn [await bind]. rewrite Hv, Ht.
  unfold getPrivateKey, SignJWT_sign, call. rewrite Hk.
  cbn [negb bind]. rewrite Hs. simpl. eexists. reflexivity.
Qed.

(** X7. When the identity provider cannot answer ([getUser] rejects, as
    opposed to answering with an error) the call is answered 500, not
    401, and no profile is looked up. *)
Theorem identity_outage_is_internal (env : Env) (w : ServerWorld)
  (request : NextRequest) (tok reason : string) :
  authorization request = Some ("Bearer " ++ tok) ->
  auth_getUser w tok = Rejected reason ->
  POST env w request
  = (Normal {| body := generic_error_body; status := 500 |},
     [EvGetUser tok; EvConsoleError "비디오 토큰 생성 오류:" reason]).
Proof.
  intros Hh Hr. destruct (bearer_strip tok) as [Hp Hs].
  unfold POST. rewrite Hh, Hp.
  rewrite (startsWith_truthy _ "Bearer ") by (congruence || exact Hp).
  rewrite Hs, Hr. reflexivity.
Qed.

(** X8. For a call that has passed every check: when [createPrivateKey]
    throws (the configured key is not a PEM key) the call is answered 500
    and the signer is never called; when the key is built and the signer
    rejects, the call is answered 500 as well.  Either way the exception
    is logged and the body is the fixed message. *)
Theorem key_or_signature_failure_is_internal (env : Env) (w : ServerWorld)
  (request : NextRequest) (u : User) (p : Profile) (b vid : json)
  (reason : string) :
  authenticates w request u ->
  profiles_single w (id u)
  = Resolved {| profile := Some p; profileError := None |} ->
  has_paid p = Some true ->
  request_json request = Resolved b ->
  get_property b "videoId" = Some (Some vid) ->
  truthy_json vid = true ->
  (createPrivateKey w (base64_to_utf8 w (CF_STREAM_SIGNING_KEY_BASE64 env))
   = Throw reason ->
   exists tok,
     POST env w request
     = (Normal {| body := generic_error_body; status := 500 |},
        [EvGetUser tok; EvProfilesSingle (id u); EvRequestJson;
         EvCreatePrivateKey
           (base64_to_utf8 w (CF_STREAM_SIGNING_KEY_BASE64 env));
         EvConsoleError "비디오 토큰 생성 오류:" reason]))
  /\ (forall key,
       createPrivateKey w
         (base64_to_utf8 w (CF_STREAM_SIGNING_KEY_BASE64 env))
       = Normal key ->
       rs256 w key {| alg := "RS256"; header_kid := CF_STREAM_KEY_ID env |}
         {| sub := vid; kid := CF_STREAM_KEY_ID env;
            exp := Date_now w / 1000 + 3600 |}
       = Rejected reason ->
       exists tok,
         POST env w request
         = (Normal {| body := generic_error_body; status := 500 |},
            [EvGetUser tok; EvProfilesSingle (id u); EvRequestJson;
             EvCreatePrivateKey
               (base64_to_utf8 w (CF_STREAM_SIGNING_KEY_BASE64 env));
             EvSign key
               {| sub := vid; kid := CF_STREAM_KEY_ID env;
                  exp := Date_now w / 1000 + 3600 |};
             EvConsoleError "비디오 토큰 생성 오류:" reason])).
Proof.
  intros Ha Hl Hp Hb Hv Ht. split.
  - intros Hk. enter_paid Ha Hl Hp. rewrite Hb. cbn [await bind].
    rewrite Hv, Ht. unfold getPrivateKey, call. rewrite Hk. simpl.
    eexists. reflexivity.
  - intros key Hk Hs. enter_paid Ha Hl Hp. rewrite Hb. cbn [await bind].
    rewrite Hv, Ht. unfold getPrivateKey, SignJWT_sign, call. rewrite Hk.
    cbn [negb bind]. rewrite Hs. simpl. eexists. reflexivity.
Qed.

(** X9. In milliseconds, the token of a 200 answer expires at most one hour
    after the call's [Date.now()] and more than 59 minutes 59 seconds
    after it. *)
Theorem expiration_window (env : Env) (w : ServerWorld)
  (request : NextRequest) (r : NextResponse) (tr : list server_event)
  (tok : JWT) :
  POST env w request = (Normal r, tr) ->
  token_of r = Some tok ->
  (Date_now w + 3599000 < exp (payload tok) * 1000 <= Date_now w + 3600000)%N.
Proof.
  intros H Htok. POST_split H.
  all: inversion H; subst; clear H; try discriminate Htok.
  injection Htok as <-. cbn [exp payload].
  pose proof (expiration_in_ms (Date_now w)). lia.
Qed.

(** X10. The key is built and the signer is called only for a caller whose
    session resolved, whose profile says paid and whose body carries a
    truthy [videoId]. *)
Theorem signing_requires_entitlement (env : Env) (w : ServerWorld)
  (request : NextRequest) :
  existsb is_key_load (snd (POST env w request))
  || existsb is_sign (snd (POST env w request)) = true ->
  exists u p b vid,
    authenticates w request u
    /\ profiles_single w (id u)
       = Resolved {| profile := Some p; profileError := None |}
    /\ has_paid p = Some true
    /\ request_json request = Resolved b
    /\ get_property b "videoId" = Some (Some vid)
    /\ truthy_json vid = true.
Proof.
  destruct (POST env w request) as [c tr] eqn:H. POST_split H.
  all: inversion H; subst; clear H; simpl; intros E; try discriminate E.
  all: match goal with
       | Hu : user ?a = Some ?u, Hp : profile ?a0 = Some ?p
         |- _ => exists u, p; destruct a, a0; simpl in *; subst
       end.
  all: eexists _, _; split; [|split; [|split; [|split; [|split]]]];
    [ eexists; split; [|split]; eassumption
    | eassumption
    | now apply truthy_obool_true
    | reflexivity
    | eassumption
    | assumption ].
Qed.


(** * Further properties of the player component *)

#[local] Arguments make_paymentId : simpl never.
#[local] Arguments payment_request : simpl never.

(** Case analysis of a run of [handlePayment] kept in hypothesis [H]. *)
Ltac handlePayment_split H :=
  unfold handlePayment, request_for in H;
  repeat (simpl in H;
    match type of H with
    | context [session_getUser ?w] => destruct (session_getUser w) eqn:?
    | context [match user ?u with _ => _ end] => destruct (user u) eqn:?
    | context [requestPayment ?w ?r] => destruct (requestPayment w r) eqn:?
    | context [response_code_truthy ?r] =>
        destruct (response_code_truthy r) eqn:?
    | context [profiles_upsert ?w ?i ?b] =>
        destruct (profiles_upsert w i b) eqn:?
    | context [match updateError ?u with _ => _ end] =>
        destruct (updateError u) eqn:?
    end);
  simpl in H.

Section MorePlayer.

Variable cenv : ClientEnv.
Variable props : Props.

(** X12. Without a logged-in user the handler alerts that a login is needed
    and stops: PortOne is not asked, nothing is written, and the button is
    released.  Only [user] is looked at; the [error] of the answer is
    not. *)
Theorem payment_needs_session (w : ClientWorld) (ur : UserResponse) :
  session_getUser w = Resolved ur ->
  user ur = None ->
  handlePayment cenv props w
  = (Normal tt,
     [CSetIsProcessing true; CGetUser; CAlert alert_login_required;
      CSetIsProcessing false]).
Proof.
  intros Hu Hn. unfold handlePayment. rewrite Hu.
  cbn [await bind emit try_catch]. rewrite Hn. reflexivity.
Qed.

(** X13. When the charge succeeds and the upsert is acknowledged, the handler
    has asked PortOne once, written [has_paid = true] for the user once,
    alerts the success and reloads the page; [isProcessing] is left set
    until the reload. *)
Theorem payment_success_reloads (w : ClientWorld) (ur : UserResponse)
  (u : User) (response : option PaymentResponse) (up : UpsertResponse) :
  session_getUser w = Resolved ur ->
  user ur = Some u ->
  requestPayment w (request_for cenv props w u) = Resolved response ->
  response_code_truthy response = false ->
  profiles_upsert w (id u) true = Resolved up ->
  updateError up = None ->
  handlePayment cenv props w
  = (Normal tt,
     [CSetIsProcessing true; CGetUser;
      CRequestPayment (request_for cenv props w u);
      CProfilesUpsert (id u) true; CAlert alert_payment_done; CReload])
  /\ isProcessing_after false (snd (handlePayment cenv props w)) = true.
Proof.
  intros Hu Hus Hr Hc Hup He.
  assert (E : handlePayment cenv props w
    = (Normal tt,
       [CSetIsProcessing true; CGetUser;
        CRequestPayment (request_for cenv props w u);
        CProfilesUpsert (id u) true; CAlert alert_payment_done; CReload])).
  { unfold handlePayment, request_for in *.
    rewrite Hu. cbn [await bind emit try_catch]. rewrite Hus.
    rewrite Hr. cbn [await bind]. rewrite Hc, Hup. cbn [await bind].
    rewrite He. reflexivity. }
  split; [exact E|]. rewrite E. reflexivity.
Qed.

(** X14. Every run of the handler ends normally (its [catch] takes every
    exception), starts by setting [isProcessing], shows exactly one alert,
    asks PortOne at most once and writes at most once; it either reloads
    the page after the success alert, or releases the button and does not
    reload. *)
Theorem handlePayment_run_shape (w : ClientWorld) :
  exists tr,
    handlePayment cenv props w = (Normal tt, CSetIsProcessing true :: tr)
    /\ length (alerts tr) = 1
    /\ length (payment_requests tr) <= 1
    /\ length (upserts tr) <= 1
    /\ ((existsb is_reload tr = true
         /\ alerts tr = [alert_payment_done]
         /\ isProcessing_after true tr = true)
        \/ (existsb is_reload tr = false
            /\ alerts tr <> [alert_payment_done]
            /\ isProcessing_after true tr = false)).
Proof.
  destruct (handlePayment cenv props w) as [c tr] eqn:H.
  handlePayment_split H.
  all: inversion H; subst; clear H.
  all: eexists; split; [reflexivity|]; simpl.
  all: split; [reflexivity|]; split; [lia|]; split; [lia|].
  all: first
    [ left; split; [reflexivity|]; split; reflexivity
    | right; split; [reflexivity|]; split; [|reflexivity] ].
  all: intros E; injection E as E; revert E;
    unfold alert_payment_done, alert_payment_failed; simpl; discriminate.
Qed.

(** X15. The handler writes to [profiles] only after PortOne has answered
    without a result code, and then only [has_paid = true] for the row of
    the logged-in user. *)
Theorem upsert_only_after_charge (w : ClientWorld) (uid : string)
  (flag : bool) :
  In (CProfilesUpsert uid flag) (snd (handlePayment cenv props w)) ->
  flag = true
  /\ exists ur u response,
      session_getUser w = Resolved ur
      /\ user ur = Some u
      /\ uid = id u
      /\ requestPayment w (request_for cenv props w u) = Resolved response
      /\ response_code_truthy response = false.
Proof.
  destruct (handlePayment cenv props w) as [c tr] eqn:H.
  handlePayment_split H.
  all: inversion H; subst; clear H; simpl; intros Hin.
  all: repeat (destruct Hin as [Hin|Hin]; [try discriminate Hin|]);
    try contradiction.
  all: injection Hin as <- <-; split; [reflexivity|].
  all: eexists _, _, _; repeat split; eassumption.
Qed.

(** X16. An exception anywhere in the handler ends in the generic error alert
    with the exception logged under the payment-error label: when the
    session cannot be read, when PortOne's promise rejects (nothing is
    written then), and also when the charge succeeded and the upsert
    promise rejects instead of resolving with an error: that case shows
    the generic alert, not the contact-support one. *)
Theorem payment_exception_is_generic (w : ClientWorld) (reason : string) :
  (session_getUser w = Rejected reason ->
   handlePayment cenv props w
   = (Normal tt,
      [CSetIsProcessing true; CGetUser; CConsoleError "결제 오류:" reason;
       CAlert alert_payment_error; CSetIsProcessing false]))
  /\ (forall ur u,
       session_getUser w = Resolved ur ->
       user ur = Some u ->
       requestPayment w (request_for cenv props w u) = Rejected reason ->
       handlePayment cenv props w
       = (Normal tt,
          [CSetIsProcessing true; CGetUser;
           CRequestPayment (request_for cenv props w u);
           CConsoleError "결제 오류:" reason;
           CAlert alert_payment_error; CSetIsProcessing false]))
  /\ (forall ur u response,
       session_getUser w = Resolved ur ->
       user ur = Some u ->
       requestPayment w (request_for cenv props w u) = Resolved response ->
       response_code_truthy response = false ->
       profiles_upsert w (id u) true = Rejected reason ->
       handlePayment cenv props w
       = (Normal tt,
          [CSetIsProcessing true; CGetUser;
           CRequestPayment (request_for cenv props w u);
           CProfilesUpsert (id u) true;
           CConsoleError "결제 오류:" reason;
           CAlert alert_payment_error; CSetIsProcessing false])).
Proof.
  split; [|split].
  - intros Hu. unfold handlePayment. rewrite Hu. reflexivity.
  - intros ur u Hu Hus Hr. unfold handlePayment, request_for in *.
    rewrite Hu. cbn [await bind emit try_catch]. rewrite Hus, Hr.
    reflexivity.
  - intros ur u response Hu Hus Hr Hc Hup.
    unfold handlePayment, request_for in *.
    rewrite Hu. cbn [await bind emit try_catch]. rewrite Hus, Hr.
    cbn [await bind]. rewrite Hc, Hup. reflexivity.
Qed.

End MorePlayer.

(** Case analysis of a run of [checkAuth] kept in hypothesis [H]. *)
Ltac checkAuth_split H :=
  unfold checkAuth in H;
  repeat (simpl in H;
    match type of H with
    | context [session_getUser ?w] => destruct (session_getUser w) eqn:?
    | context [match userError ?u with _ => _ end] =>
        destruct (userError u) eqn:?
    | context [match user ?u with _ => _ end] => destruct (user u) eqn:?
    | context [client_profiles_single ?w ?i] =>
        destruct (client_profiles_single w i) eqn:?
    | context [match profileError ?u with _ => _ end] =>
        destruct (profileError u) eqn:?
    | context [match profile ?u with _ => _ end] => destruct (profile u) eqn:?
    | context [truthy_obool ?b] => destruct (truthy_obool b) eqn:?
    end);
  simpl in H.

(** [evaluate] gives [paid] only from a resolved session and a paid
    row. *)
Lemma evaluate_paid_inv (w : ClientWorld) :
  evaluate w = paid ->
  exists u p,
    session_getUser w = Resolved {| user := Some u; userError := None |}
    /\ client_profiles_single w (id u)
       = Resolved {| profile := Some p; profileError := None |}
    /\ has_paid p = Some true.
Proof.
  unfold evaluate, checkAuth.
  destruct (session_getUser w) as [[[u|] [e|]]|] eqn:Hu; simpl;
    try discriminate.
  destruct (client_profiles_single w (id u))
    as [[[[[[|]|]]|] [e|]]|] eqn:Hl; simpl; try discriminate.
  intros _. eexists _, _.
  split; [reflexivity | split; [exact Hl | reflexivity]].
Qed.

(** X17. When the session or the profile cannot be read ([getUser] or the
    lookup rejects), [checkAuth] ends with that exception unhandled and
    never sets the status: the component stays on the loading spinner. *)
Theorem checkAuth_rejection_keeps_loading (props : Props) (w : ClientWorld)
  (reason : string) :
  session_getUser w = Rejected reason
  \/ (exists u,
        session_getUser w
        = Resolved {| user := Some u; userError := None |}
        /\ client_profiles_single w (id u) = Rejected reason) ->
  fst (checkAuth w) = Throw reason
  /\ evaluate w = loading
  /\ forall isProcessing, render props (evaluate w) isProcessing = Spinner.
Proof.
  unfold evaluate, checkAuth.
  intros [Hu | (u & Hu & Hl)]; rewrite Hu; simpl; [|rewrite Hl; simpl];
    repeat split.
Qed.

(** X18. [checkAuth] only reads: its events are the two queries and at most
    one [setAuthStatus]; it sets the status exactly once when it ends
    normally, and never back to [loading]. *)
Theorem checkAuth_reads_only (w : ClientWorld) :
  forallb is_read_event (snd (checkAuth w)) = true
  /\ length (status_sets (snd (checkAuth w))) <= 1
  /\ (fst (checkAuth w) = Normal tt
      <-> length (status_sets (snd (checkAuth w))) = 1)
  /\ ~ In loading (status_sets (snd (checkAuth w))).
Proof.
  destruct (checkAuth w) as [c tr] eqn:H. checkAuth_split H.
  all: inversion H; subst; clear H; simpl.
  all: split; [reflexivity|]; split; [lia|].
  all: split; [split; intros E; reflexivity || discriminate E|].
  all: intros Hin; repeat (destruct Hin as [Hin|Hin]; [discriminate Hin|]);
    exact Hin.
Qed.

(** X19. The course video is played only to a viewer whose session resolved and
    whose profile row says paid, and only when the course has a non-empty
    video URL; the payment button is offered exactly in the [not_paid]
    state, disabled while a payment is being processed. *)
Theorem video_only_for_paid (props : Props) (w : ClientWorld)
  (isProcessing : bool) :
  (plays_video (render props (evaluate w) isProcessing) = true ->
   (exists u p,
      session_getUser w = Resolved {| user := Some u; userError := None |}
      /\ client_profiles_single w (id u)
         = Resolved {| profile := Some p; profileError := None |}
      /\ has_paid p = Some true)
   /\ exists url,
       videoUrl props = Some url /\ url <> ""
       /\ render props (evaluate w) isProcessing = Player (VideoPlayer url))
  /\ (offers_payment (render props (evaluate w) isProcessing) = true
      <-> evaluate w = not_paid)
  /\ (forall backdrop disabled label,
       render props (evaluate w) isProcessing
       = PaymentPrompt backdrop disabled label ->
       disabled = isProcessing).
Proof.
  split; [|split].
  - destruct (evaluate w) eqn:He; simpl; try discriminate.
    intros Hp. split; [exact (evaluate_paid_inv w He)|].
    destruct (videoUrl props) as [[|c url]|]; simpl in *.
    + destruct (thumbnail props) as [[|]|]; discriminate Hp.
    + eexists. split; [reflexivity|]. split; [discriminate | reflexivity].
    + destruct (thumbnail props) as [[|]|]; discriminate Hp.
  - destruct (evaluate w); simpl; split; intros E;
      try discriminate E; try reflexivity.
    exfalso. revert E.
    destruct (videoUrl props) as [[|]|]; simpl;
      try destruct (thumbnail props) as [[|]|]; discriminate.
  - intros backdrop disabled label.
    destruct (evaluate w); simpl; try discriminate.
    + intros H. injection H as _ H _. now symmetry.
    + destruct (videoUrl props) as [[|]|]; simpl;
        try destruct (thumbnail props) as [[|]|]; discriminate.
Qed.

(** X20. The browser gate and the server gate agree.  For a request that
    carries the browser's session token, with both sides reading the same
    identity provider and the same table: the route answers 401 exactly
    when the player shows the login prompt, 403 or 404 exactly when it
    shows the payment prompt, and it answers 200 or 400 only to a viewer
    whom the player treats as paid. *)
Theorem client_and_server_agree (env : Env) (sw : ServerWorld)
  (cw : ClientWorld) (request : NextRequest) (tok : string) :
  authorization request = Some ("Bearer " ++ tok) ->
  same_backend sw cw tok ->
  (status_of (POST env sw request) = Some 401%N
   <-> evaluate cw = not_logged_in)
  /\ (status_of (POST env sw request) = Some 403%N
      \/ status_of (POST env sw request) = Some 404%N
      <-> evaluate cw = not_paid)
  /\ (status_of (POST env sw request) = Some 200%N
      \/ status_of (POST env sw request) = Some 400%N ->
      evaluate cw = paid)
  /\ (evaluate cw = loading ->
      status_of (POST env sw request) = Some 500%N).
Proof.
  intros Hh [Hs1 Hs2]. destruct (bearer_strip tok) as [Hp Hr].
  destruct (POST env sw request) as [c tr] eqn:H.
  unfold POST in H. rewrite Hh, Hp in H.
  rewrite (startsWith_truthy _ "Bearer ") in H by (congruence || exact Hp).
  rewrite Hr, Hs1 in H. cbn [negb orb] in H.
  unfold evaluate, checkAuth.
  destruct (session_getUser cw) as [[[u|] [e|]]|];
    cbn [await bind user userError id] in H |- *.
  2:{ rewrite Hs2 in H.
      destruct (client_profiles_single cw (id u))
        as [[[[[[|]|]]|] [e'|]]|];
        cbn [await bind profile profileError has_paid truthy_obool negb]
          in H |- *.
      all: POST_split H; inversion H; subst; clear H.
      all: unfold status_of; simpl.
      all: intuition (discriminate || congruence). }
  all: simpl in H; inversion H; subst; clear H; unfold status_of; simpl.
  all: intuition (discriminate || congruence).
Qed.


(** ** The video URL helpers *)

Lemma append_nil_r (s : string) : s ++ "" = s.
Proof. induction s as [|c s IH]; simpl; [reflexivity | now rewrite IH]. Qed.

Lemma prefix_nil (s : string) : String.prefix "" s = true.
Proof. destruct s; reflexivity. Qed.

Lemma includes_cons_false (c : ascii) (s sub : string) :
  includes (String c s) sub = false ->
  String.prefix sub (String c s) = false /\ includes s sub = false.
Proof.
  cbn [includes]. destruct (String.prefix sub (String c s)); [discriminate|].
  auto.
Qed.

(** A string without the separator is one piece. *)
Lemma split_from_no_sep (sep s cur : string) :
  includes s sep = false -> split_from sep 0 cur s = [cur ++ s].
Proof.
  revert cur. induction s as [|c s IH]; intros cur H.
  - simpl. now rewrite append_nil_r.
  - apply includes_cons_false in H. destruct H as [Hp Hi].
    cbn [split_from]. rewrite Hp, (IH _ Hi), append_assoc. reflexivity.
Qed.

(** The first piece always extends what has been built so far. *)
Lemma split_from_head (sep s : string) :
  forall skip cur, exists t more,
    split_from sep skip cur s = (cur ++ t) :: more.
Proof.
  induction s as [|c s IH]; intros skip cur.
  - exists "", []. simpl. now rewrite append_nil_r.
  - cbn [split_from]. destruct skip as [|k].
    + destruct (String.prefix sep (String c s)).
      * exists "". eexists. now rewrite append_nil_r.
      * destruct (IH 0 (cur ++ String c "")) as (t & more & E).
        exists (String c t), more. rewrite E, append_assoc. reflexivity.
    + apply IH.
Qed.

(** A separator that does not contain [c] cannot reach across a [c]. *)
Lemma prefix_app_no_char (c : ascii) (rest sep : string) :
  includes sep (String c "") = false ->
  forall v, String.prefix sep (v ++ String c rest) = true ->
            String.prefix sep v = true.
Proof.
  induction sep as [|a sep IH]; intros Hc v H; [apply prefix_nil|].
  apply includes_cons_false in Hc. destruct Hc as [Hp Hi].
  destruct v as [|y v]; simpl in H |- *.
  - simpl in Hp. destruct (Ascii.ascii_dec c a) as [->|].
    + destruct sep; discriminate Hp.
    + destruct (Ascii.ascii_dec a c) as [->|]; [contradiction | discriminate].
  - destruct (Ascii.ascii_dec a y); [|discriminate H]. now apply IH.
Qed.

(** Up to the first [c], a piece free of the separator stays whole. *)
Lemma split_from_keeps_until (c : ascii) (sep rest : string) :
  includes sep (String c "") = false ->
  forall v cur,
    includes v sep = false ->
    exists t more,
      split_from sep 0 cur (v ++ String c rest)
      = (cur ++ v ++ String c t) :: more.
Proof.
  intros Hc. induction v as [|x v IH]; intros cur Hv.
  - assert (Hp : String.prefix sep (String c rest) = false).
    { destruct (String.prefix sep (String c rest)) eqn:E; [|reflexivity].
      apply (prefix_app_no_char c rest sep Hc "") in E.
      simpl in Hv. destruct sep; [discriminate Hv | discriminate E]. }
    cbn [append split_from]. rewrite Hp.
    destruct (split_from_head sep rest 0 (cur ++ String c ""))
      as (t & more & E).
    exists t, more. rewrite E, append_assoc. reflexivity.
  - apply includes_cons_false in Hv. destruct Hv as [Hp Hi].
    assert (Hp' : String.prefix sep (String x v ++ String c rest) = false).
    { destruct (String.prefix sep (String x v ++ String c rest)) eqn:E;
        [|reflexivity].
      apply (prefix_app_no_char c rest sep Hc) in E. congruence. }
    cbn [append split_from] in Hp' |- *. rewrite Hp'.
    destruct (IH (cur ++ String x "") Hi) as (t & more & E).
    exists t, more. rewrite E, append_assoc. reflexivity.
Qed.

(** Cutting at a one-character stop gives what comes before it. *)
Lemma split_char_head (c : ascii) (rest : string) :
  forall v cur,
    includes v (String c "") = false ->
    exists more,
      split_from (String c "") 0 cur (v ++ String c rest) = (cur ++ v) :: more.
Proof.
  induction v as [|x v IH]; intros cur Hv.
  - cbn [append split_from String.prefix].
    destruct (Ascii.ascii_dec c c); [|contradiction].
    rewrite prefix_nil. eexists. now rewrite append_nil_r.
  - apply includes_cons_false in Hv. destruct Hv as [Hp Hi].
    cbn [append split_from String.prefix] in Hp |- *.
    destruct (Ascii.ascii_dec c x);
      [rewrite prefix_nil in Hp; discriminate Hp|].
    destruct (IH (cur ++ String x "") Hi) as (more & E).
    exists more. rewrite E, append_assoc. reflexivity.
Qed.

Lemma prefix_includes_char (c : ascii) (b s : string) :
  forall a, String.prefix (a ++ String c b) s = true ->
            includes s (String c "") = true.
Proof.
  intros a. revert s. induction a as [|x a IH]; intros s H.
  - destruct s as [|y s]; [discriminate H|]. simpl in H.
    destruct (Ascii.ascii_dec c y) as [->|]; [|discriminate H].
    cbn [includes String.prefix].
    destruct (Ascii.ascii_dec y y); [|contradiction].
    now rewrite prefix_nil.
  - destruct s as [|y s]; [discriminate H|]. simpl in H.
    destruct (Ascii.ascii_dec x y); [|discriminate H].
    cbn [includes]. rewrite (IH s H).
    destruct (String.prefix (String c "") (String y s)); reflexivity.
Qed.

(** A string without [c] has no occurrence of a marker that contains
    [c]. *)
Lemma no_char_no_marker (c : ascii) (a b s : string) :
  includes s (String c "") = false ->
  includes s (a ++ String c b) = false.
Proof.
  induction s as [|y s IH]; intros H.
  - cbn [includes]. destruct a; reflexivity.
  - pose proof (includes_cons_false _ _ _ H) as [Hp Hi].
    cbn [includes].
    destruct (String.prefix (a ++ String c b) (String y s)) eqn:E.
    + apply prefix_includes_char in E. congruence.
    + exact (IH Hi).
Qed.

Lemma plain_id_markers (vid : string) :
  plain_id vid = true ->
  includes vid "?" = false /\ includes vid "&" = false
  /\ includes vid "youtu.be/" = false
  /\ includes vid "watch?v=" = false
  /\ includes vid "embed/" = false.
Proof.
  unfold plain_id. intros H.
  apply andb_prop in H. destruct H as [H Hs].
  apply andb_prop in H. destruct H as [Hq Ha].
  apply negb_true_iff in Hq, Ha, Hs.
  repeat split; try assumption.
  - exact (no_char_no_marker "/" "youtu.be" "" vid Hs).
  - exact (no_char_no_marker "?" "watch" "v=" vid Hq).
  - exact (no_char_no_marker "/" "embed" "" vid Hs).
Qed.

Lemma getYouTubeEmbedUrl_plain (vid : string) :
  plain_id vid = true ->
  getYouTubeEmbedUrl ("https://youtu.be/" ++ vid)
  = "https://www.youtube.com/embed/" ++ vid
  /\ (forall rest,
       getYouTubeEmbedUrl ("https://youtu.be/" ++ vid ++ "?" ++ rest)
       = "https://www.youtube.com/embed/" ++ vid)
  /\ getYouTubeEmbedUrl ("https://www.youtube.com/watch?v=" ++ vid)
     = "https://www.youtube.com/embed/" ++ vid
  /\ (forall rest,
       includes (vid ++ "&" ++ rest) "youtu.be/" = false ->
       getYouTubeEmbedUrl
         ("https://www.youtube.com/watch?v=" ++ vid ++ "&" ++ rest)
       = "https://www.youtube.com/embed/" ++ vid)
  /\ getYouTubeEmbedUrl ("https://www.youtube.com/embed/" ++ vid)
     = "https://www.youtube.com/embed/" ++ vid.
Proof.
  intros Hplain.
  destruct (plain_id_markers vid Hplain) as (Hq & Ha & Hyb & Hw & He).
  repeat split; try intros rest; try intros Hrest.
  all: unfold getYouTubeEmbedUrl; f_equal; unfold segment_after, split.
  - simpl. rewrite !prefix_nil.
    rewrite (split_from_no_sep _ vid "" Hyb). simpl.
    rewrite (split_from_no_sep _ vid "" Hq). reflexivity.
  - simpl. rewrite !prefix_nil.
    destruct (split_from_keeps_until "?" "youtu.be/" rest eq_refl vid "" Hyb)
      as (t & more & E).
    rewrite E. simpl.
    destruct (split_char_head "?" t vid "" Hq) as (more' & E').
    rewrite E'. reflexivity.
  - simpl. rewrite !prefix_nil, Hyb.
    rewrite (split_from_no_sep _ vid "" Hw). simpl.
    rewrite (split_from_no_sep _ vid "" Ha). reflexivity.
  - simpl in Hrest |- *. rewrite !prefix_nil, Hrest.
    destruct (split_from_keeps_until "&" "watch?v=" rest eq_refl vid "" Hw)
      as (t & more & E).
    rewrite E. simpl.
    destruct (split_char_head "&" t vid "" Ha) as (more' & E').
    rewrite E'. reflexivity.
  - simpl. rewrite !prefix_nil, Hyb, Hw.
    rewrite (split_from_no_sep _ vid "" He). simpl.
    rewrite (split_from_no_sep _ vid "" Hq). reflexivity.
Qed.

(** X21. The three shapes of a YouTube address lead to the same embed
    address.  For a video id without [?], [&] and [/]: the short
    [youtu.be/] form and the [watch?v=] form, each with or without further
    query parameters, give the embed address of that id, and an embed
    address is left as it is. *)
Theorem youtube_urls_normalise (vid : string) :
  plain_id vid = true ->
  getYouTubeEmbedUrl ("https://youtu.be/" ++ vid)
  = "https://www.youtube.com/embed/" ++ vid
  /\ (forall rest,
       getYouTubeEmbedUrl ("https://youtu.be/" ++ vid ++ "?" ++ rest)
       = "https://www.youtube.com/embed/" ++ vid)
  /\ getYouTubeEmbedUrl ("https://www.youtube.com/watch?v=" ++ vid)
     = "https://www.youtube.com/embed/" ++ vid
  /\ (forall rest,
       includes (vid ++ "&" ++ rest) "youtu.be/" = false ->
       getYouTubeEmbedUrl
         ("https://www.youtube.com/watch?v=" ++ vid ++ "&" ++ rest)
       = "https://www.youtube.com/embed/" ++ vid)
  /\ getYouTubeEmbedUrl ("https://www.youtube.com/embed/" ++ vid)
     = "https://www.youtube.com/embed/" ++ vid.
Proof. exact (getYouTubeEmbedUrl_plain vid). Qed.

(** X22. What the player element is.  An address that mentions neither
    [youtube.com] nor [youtu.be] is given to a [video] element unchanged;
    a short or a watch address of a plain video id is given to an
    [iframe] on the embed address of that id; an address that mentions
    YouTube but has none of the three markers (a channel or shorts
    address, say) is given to an [iframe] whose embed address has no
    video id. *)
Theorem VideoPlayer_cases (url : string) :
  (isYouTubeUrl url = false -> VideoPlayer url = Video url)
  /\ (forall vid,
       plain_id vid = true ->
       (url = "https://youtu.be/" ++ vid
        \/ url = "https://www.youtube.com/watch?v=" ++ vid) ->
       VideoPlayer url = Iframe ("https://www.youtube.com/embed/" ++ vid))
  /\ (isYouTubeUrl url = true ->
      includes url "youtu.be/" = false ->
      includes url "watch?v=" = false ->
      includes url "embed/" = false ->
      VideoPlayer url = Iframe "https://www.youtube.com/embed/").
Proof.
  split; [|split].
  - unfold VideoPlayer. intros ->. reflexivity.
  - intros vid Hplain Hurl.
    destruct (getYouTubeEmbedUrl_plain vid Hplain) as (E1 & _ & E3 & _).
    unfold VideoPlayer.
    destruct Hurl as [-> | ->].
    + rewrite E1.
      assert (Hy : isYouTubeUrl ("https://youtu.be/" ++ vid) = true).
      { unfold isYouTubeUrl. simpl. apply orb_true_r. }
      rewrite Hy. reflexivity.
    + rewrite E3.
      assert (Hy : isYouTubeUrl ("https://www.youtube.com/watch?v=" ++ vid)
                   = true).
      { unfold isYouTubeUrl. simpl. reflexivity. }
      rewrite Hy. reflexivity.
  - unfold VideoPlayer, getYouTubeEmbedUrl. intros -> -> -> ->. reflexivity.
Qed.

(** ** The course page *)

(** X23. [getCourse] gives up on any reported error, even when the answer
    carries a row, and the page then ends in [notFound()]; the error is
    logged.  Without an error and without a row the page ends in
    [notFound()] silently. *)
Theorem course_page_not_found
  (courses_single : string -> awaited CourseResponse) (cid : string)
  (r : CourseResponse) :
  courses_single cid = Resolved r ->
  (forall e, course_error r = Some e ->
     getCourse courses_single cid
     = (Normal None,
        [PCoursesSingle cid; PConsoleError "Error fetching course:" e])
     /\ CourseDetailPage courses_single cid
        = (Throw "NEXT_NOT_FOUND",
           [PCoursesSingle cid; PConsoleError "Error fetching course:" e]))
  /\ (course_error r = None -> course_data r = None ->
      CourseDetailPage courses_single cid
      = (Throw "NEXT_NOT_FOUND", [PCoursesSingle cid])).
Proof.
  intros Hr. unfold CourseDetailPage, getCourse. rewrite Hr. split.
  - intros e He. simpl. rewrite He. split; reflexivity.
  - intros He Hd. simpl. rewrite He, Hd. reflexivity.
Qed.

(** X24. From the page to the gateway: when the page finds the course, every
    payment the player on that page asks PortOne for is for the course's
    own price, in KRW, under the course's title, with the viewer's
    e-mail, and under a payment id built from the course id, the viewer's
    id and the clock. *)
Theorem course_page_charges_course_price
  (courses_single : string -> awaited CourseResponse) (cid : string)
  (c : Course) (cenv : ClientEnv) (w : ClientWorld) :
  courses_single cid
  = Resolved {| course_data := Some c; course_error := None |} ->
  exists props,
    CourseDetailPage courses_single cid
    = (Normal props, [PCoursesSingle cid])
    /\ forall req,
        In req (payment_requests (snd (handlePayment cenv props w))) ->
        totalAmount req = course_price c
        /\ orderName req = course_title c
        /\ currency req = "CURRENCY_KRW"
        /\ exists ur u,
            session_getUser w = Resolved ur
            /\ user ur = Some u
            /\ customer_email req = email u
            /\ paymentId req
               = make_paymentId (course_id c) (id u) (client_Date_now w).
Proof.
  intros Hr. eexists. split.
  - unfold CourseDetailPage, getCourse. rewrite Hr. reflexivity.
  - intros req.
    match goal with
    | |- In _ (payment_requests (snd (handlePayment _ ?p _))) -> _ =>
        destruct (handlePayment cenv p w) as [res tr] eqn:H
    end.
    handlePayment_split H.
    all: inversion H; subst; clear H; simpl; intros Hin.
    all: repeat (destruct Hin as [Hin|Hin]; [|try contradiction]);
      try contradiction.
    all: subst req; repeat split; eexists _, _; repeat split; eassumption.
Qed.

(** ** Concrete runs of the further properties *)

Lemma session_token_is_header_suffix_witness :
  normalised_header "Bearer good" = true
  /\ In (EvGetUser "good")
       (snd (POST sample_env (sample_world paid_row)
               (sample_request video_body)))
  /\ "good" <> "" /\ ends_with_whitespace "good" = false.
Proof.
  destruct (session_token_is_header_suffix sample_env (sample_world paid_row)
              (sample_request video_body) "Bearer good" "good"
              eq_refl eq_refl) as [Hiff Hne].
  split; [reflexivity|].
  split; [exact (proj2 Hiff eq_refl) | exact (Hne (proj2 Hiff eq_refl))].
Defined.

Lemma internal_error_is_logged_witness :
  existsb is_console_error
    (snd (POST sample_env (sample_world paid_row) truncated_request)) = true
  /\ exists tr reason,
      POST sample_env (sample_world paid_row) truncated_request
      = (Normal {| body := generic_error_body; status := 500 |},
         (tr ++ [EvConsoleError "비디오 토큰 생성 오류:" reason])%list)
      /\ existsb is_console_error tr = false.
Proof.
  destruct (internal_error_is_logged sample_env (sample_world paid_row)
              truncated_request) as [Hiff Hlog].
  split; [exact (proj1 Hiff eq_refl) | exact (Hlog eq_refl)].
Defined.

Lemma bad_request_characterised_witness :
  status_of (POST sample_env (sample_world paid_row)
               (sample_request (Resolved empty_id_body))) = Some 400%N
  /\ status_of (POST sample_env (sample_world paid_row)
                  (sample_request (Resolved JNull))) = Some 500%N
  /\ status_of (POST sample_env (sample_world paid_row)
                  (sample_request (Resolved (JStr "vid123")))) = Some 400%N.
Proof.
  split; [|split].
  - apply (proj1 (bad_request_characterised sample_env
                    (sample_world paid_row)
                    (sample_request (Resolved empty_id_body)) alice
                    {| has_paid := Some true |} empty_id_body
                    (sample_authenticates _ _) eq_refl eq_refl eq_refl)).
    exists (Some (JStr "")). split; [reflexivity|]. right.
    exists (JStr ""). split; reflexivity.
  - apply (proj1 (proj2 (bad_request_characterised sample_env
                           (sample_world paid_row)
                           (sample_request (Resolved JNull)) alice
                           {| has_paid := Some true |} JNull
                           (sample_authenticates _ _)
                           eq_refl eq_refl eq_refl))).
    reflexivity.
  - apply (proj2 (proj2 (bad_request_characterised sample_env
                           (sample_world paid_row)
                           (sample_request (Resolved (JStr "vid123"))) alice
                           {| has_paid := Some true |} (JStr "vid123")
                           (sample_authenticates _ _)
                           eq_refl eq_refl eq_refl))).
    + discriminate.
    + intros members. discriminate.
Defined.

Lemma mint_succeeds_witness :
  exists tok,
    POST sample_env (sample_world paid_row) (sample_request video_body)
    = (Normal
         {| body :=
              TokenBody
                {| protectedHeader :=
                     {| alg := "RS256"; header_kid := "key-1" |};
                   payload :=
                     {| sub := JStr "vid123"; kid := "key-1";
                        exp := 1700003600 |};
                   signature := "c2lnbmF0dXJl" |}
                (JStr "vid123") "customer-abc.cloudflarestream.com" 3600;
            status := 200 |},
       [EvGetUser tok; EvProfilesSingle "user-1"; EvRequestJson;
        EvCreatePrivateKey "-----BEGIN";
        EvSign {| pem := "-----BEGIN" |}
          {| sub := JStr "vid123"; kid := "key-1"; exp := 1700003600 |}]).
Proof.
  exact (mint_succeeds sample_env (sample_world paid_row)
           (sample_request video_body) alice {| has_paid := Some true |}
           (JObj [("videoId", JStr "vid123")]) "vid123"
           {| pem := "-----BEGIN" |} "c2lnbmF0dXJl"
           (sample_authenticates _ _)
           eq_refl eq_refl eq_refl eq_refl
           ltac:(discriminate) eq_refl eq_refl).
Defined.

Lemma identity_outage_is_internal_witness :
  POST sample_env idp_down_world (sample_request video_body)
  = (Normal {| body := generic_error_body; status := 500 |},
     [EvGetUser "good";
      EvConsoleError "비디오 토큰 생성 오류:" "TypeError: fetch failed"]).
Proof.
  exact (identity_outage_is_internal sample_env idp_down_world
           (sample_request video_body) "good" "TypeError: fetch failed"
           eq_refl eq_refl).
Defined.

Lemma key_or_signature_failure_is_internal_witness :
  (exists tok,
     POST sample_env bad_key_world (sample_request video_body)
     = (Normal {| body := generic_error_body; status := 500 |},
        [EvGetUser tok; EvProfilesSingle "user-1"; EvRequestJson;
         EvCreatePrivateKey "-----BEGIN";
         EvConsoleError "비디오 토큰 생성 오류:" "ERR_OSSL_UNSUPPORTED"]))
  /\ exists tok,
      POST sample_env bad_signer_world (sample_request video_body)
      = (Normal {| body := generic_error_body; status := 500 |},
         [EvGetUser tok; EvProfilesSingle "user-1"; EvRequestJson;
          EvCreatePrivateKey "-----BEGIN";
          EvSign {| pem := "-----BEGIN" |}
            {| sub := JStr "vid123"; kid := "key-1"; exp := 1700003600 |};
          EvConsoleError "비디오 토큰 생성 오류:" "TypeError: key too short"]).
Proof.
  split.
  - exact (proj1 (key_or_signature_failure_is_internal sample_env
                    bad_key_world (sample_request video_body) alice
                    {| has_paid := Some true |}
                    (JObj [("videoId", JStr "vid123")]) (JStr "vid123")
                    "ERR_OSSL_UNSUPPORTED"
                    (sample_authenticates paid_row video_body)
                    eq_refl eq_refl eq_refl eq_refl eq_refl)
             eq_refl).
  - exact (proj2 (key_or_signature_failure_is_internal sample_env
                    bad_signer_world (sample_request video_body) alice
                    {| has_paid := Some true |}
                    (JObj [("videoId", JStr "vid123")]) (JStr "vid123")
                    "TypeError: key too short"
                    (sample_authenticates paid_row video_body)
                    eq_refl eq_refl eq_refl eq_refl eq_refl)
             {| pem := "-----BEGIN" |} eq_refl eq_refl).
Defined.

Lemma expiration_window_witness :
  exists r tr tok,
    POST sample_env (sample_world paid_row) (sample_request video_body)
    = (Normal r, tr)
    /\ token_of r = Some tok
    /\ (1700000000123 + 3599000 < exp (payload tok) * 1000
        <= 1700000000123 + 3600000)%N.
Proof.
  eexists _, _, _. split; [reflexivity|]. split; [reflexivity|].
  exact (expiration_window sample_env (sample_world paid_row)
           (sample_request video_body) _ _ _ eq_refl eq_refl).
Defined.

Lemma signing_requires_entitlement_witness :
  exists u p b vid,
    authenticates (sample_world paid_row) (sample_request video_body) u
    /\ profiles_single (sample_world paid_row) (id u)
       = Resolved {| profile := Some p; profileError := None |}
    /\ has_paid p = Some true
    /\ request_json (sample_request video_body) = Resolved b
    /\ get_property b "videoId" = Some (Some vid)
    /\ truthy_json vid = true.
Proof.
  exact (signing_requires_entitlement sample_env (sample_world paid_row)
           (sample_request video_body) eq_refl).
Defined.

Lemma payment_needs_session_witness :
  handlePayment sample_cenv sample_props anonymous_client
  = (Normal tt,
     [CSetIsProcessing true; CGetUser; CAlert alert_login_required;
      CSetIsProcessing false]).
Proof.
  exact (payment_needs_session sample_cenv sample_props anonymous_client
           {| user := None; userError := Some "Auth session missing!" |}
           eq_refl eq_refl).
Defined.

Lemma payment_success_reloads_witness :
  handlePayment sample_cenv sample_props paying_client
  = (Normal tt,
     [CSetIsProcessing true; CGetUser;
      CRequestPayment (request_for sample_cenv sample_props paying_client
                         alice);
      CProfilesUpsert "user-1" true; CAlert alert_payment_done; CReload])
  /\ isProcessing_after false
       (snd (handlePayment sample_cenv sample_props paying_client)) = true.
Proof.
  exact (payment_success_reloads sample_cenv sample_props paying_client
           {| user := Some alice; userError := None |} alice
           (Some {| code := None; message := None |})
           {| updateError := None |}
           eq_refl eq_refl eq_refl eq_refl eq_refl eq_refl).
Defined.

Lemma upsert_only_after_charge_witness :
  In (CProfilesUpsert "user-1" true)
    (snd (handlePayment sample_cenv sample_props paying_client))
  /\ exists ur u response,
      session_getUser paying_client = Resolved ur
      /\ user ur = Some u
      /\ "user-1" = id u
      /\ requestPayment paying_client
           (request_for sample_cenv sample_props paying_client u)
         = Resolved response
      /\ response_code_truthy response = false.
Proof.
  assert (Hin : In (CProfilesUpsert "user-1" true)
                  (snd (handlePayment sample_cenv sample_props
                          paying_client))).
  { simpl. tauto. }
  split; [exact Hin|].
  exact (proj2 (upsert_only_after_charge sample_cenv sample_props
                  paying_client "user-1" true Hin)).
Defined.

Lemma payment_exception_is_generic_witness :
  alerts (snd (handlePayment sample_cenv sample_props session_down_client))
  = [alert_payment_error]
  /\ alerts (snd (handlePayment sample_cenv sample_props gateway_down_client))
     = [alert_payment_error]
  /\ alerts
       (snd (handlePayment sample_cenv sample_props upsert_rejecting_client))
     = [alert_payment_error]
  /\ upserts
       (snd (handlePayment sample_cenv sample_props upsert_rejecting_client))
     = [CProfilesUpsert "user-1" true].
Proof.
  split; [|split; [|split]].
  - rewrite (proj1 (payment_exception_is_generic sample_cenv sample_props
                      session_down_client "TypeError: fetch failed")
               eq_refl).
    reflexivity.
  - rewrite (proj1 (proj2 (payment_exception_is_generic sample_cenv
                             sample_props gateway_down_client
                             "PortOneError: window closed"))
               {| user := Some alice; userError := None |} alice
               eq_refl eq_refl eq_refl).
    reflexivity.
  - rewrite (proj2 (proj2 (payment_exception_is_generic sample_cenv
                             sample_props upsert_rejecting_client
                             "TypeError: fetch failed"))
               {| user := Some alice; userError := None |} alice
               (Some {| code := None; message := None |})
               eq_refl eq_refl eq_refl eq_refl eq_refl).
    reflexivity.
  - rewrite (proj2 (proj2 (payment_exception_is_generic sample_cenv
                             sample_props upsert_rejecting_client
                             "TypeError: fetch failed"))
               {| user := Some alice; userError := None |} alice
               (Some {| code := None; message := None |})
               eq_refl eq_refl eq_refl eq_refl eq_refl).
    reflexivity.
Defined.

Lemma checkAuth_rejection_keeps_loading_witness :
  fst (checkAuth session_down_client) = Throw "TypeError: fetch failed"
  /\ evaluate session_down_client = loading
  /\ forall isProcessing,
      render sample_props (evaluate session_down_client) isProcessing
      = Spinner.
Proof.
  apply (checkAuth_rejection_keeps_loading sample_props session_down_client
           "TypeError: fetch failed").
  left. reflexivity.
Defined.

Lemma video_only_for_paid_witness :
  (exists u p,
     session_getUser paid_client
     = Resolved {| user := Some u; userError := None |}
     /\ client_profiles_single paid_client (id u)
        = Resolved {| profile := Some p; profileError := None |}
     /\ has_paid p = Some true)
  /\ exists url,
      videoUrl sample_props = Some url /\ url <> ""
      /\ render sample_props (evaluate paid_client) false
         = Player (VideoPlayer url).
Proof.
  exact (proj1 (video_only_for_paid sample_props paid_client false) eq_refl).
Defined.

Lemma client_and_server_agree_witness :
  same_backend (sample_world unpaid_row)
    (sample_client unpaid_row payment_ok upsert_ok) "good"
  /\ status_of (POST sample_env (sample_world unpaid_row)
                  (sample_request video_body)) = Some 403%N
  /\ evaluate (sample_client unpaid_row payment_ok upsert_ok) = not_paid.
Proof.
  assert (Hs : same_backend (sample_world unpaid_row)
                 (sample_client unpaid_row payment_ok upsert_ok) "good").
  { split; [reflexivity | intros uid; reflexivity]. }
  split; [exact Hs|]. split; [reflexivity|].
  apply (proj1 (proj2 (client_and_server_agree sample_env
                         (sample_world unpaid_row)
                         (sample_client unpaid_row payment_ok upsert_ok)
                         (sample_request video_body) "good" eq_refl Hs))).
  left. reflexivity.
Defined.

Lemma course_page_not_found_witness :
  CourseDetailPage confused_courses "course-7"
  = (Throw "NEXT_NOT_FOUND",
     [PCoursesSingle "course-7";
      PConsoleError "Error fetching course:" "warning"])
  /\ getCourse sample_courses "course-9"
     = (Normal None,
        [PCoursesSingle "course-9";
         PConsoleError "Error fetching course:" "PGRST116"]).
Proof.
  split.
  - exact (proj2 (proj1 (course_page_not_found confused_courses "course-7"
                           {| course_data := Some sample_course;
                              course_error := Some "warning" |} eq_refl)
                    "warning" eq_refl)).
  - exact (proj1 (proj1 (course_page_not_found sample_courses "course-9"
                           {| course_data := None;
                              course_error := Some "PGRST116" |} eq_refl)
                    "PGRST116" eq_refl)).
Defined.

Lemma course_page_charges_course_price_witness :
  exists props,
    CourseDetailPage sample_courses "course-7"
    = (Normal props, [PCoursesSingle "course-7"])
    /\ forall req,
        In req (payment_requests
                  (snd (handlePayment sample_cenv props paying_client))) ->
        totalAmount req = 33000%Z
        /\ orderName req = "Makeup basics"
        /\ currency req = "CURRENCY_KRW"
        /\ exists ur u,
            session_getUser paying_client = Resolved ur
            /\ user ur = Some u
            /\ customer_email req = email u
            /\ paymentId req
               = make_paymentId "course-7" (id u)
                   (client_Date_now paying_client).
Proof.
  exact (course_page_charges_course_price sample_courses "course-7"
           sample_course sample_cenv paying_client eq_refl).
Defined.

Lemma youtube_urls_normalise_witness :
  getYouTubeEmbedUrl "https://youtu.be/dQw4w9WgXcQ"
  = "https://www.youtube.com/embed/dQw4w9WgXcQ"
  /\ getYouTubeEmbedUrl "https://www.youtube.com/watch?v=dQw4w9WgXcQ"
     = "https://www.youtube.com/embed/dQw4w9WgXcQ".
Proof.
  destruct (youtube_urls_normalise "dQw4w9WgXcQ" eq_refl)
    as (E1 & _ & E3 & _).
  split; [exact E1 | exact E3].
Defined.

Lemma VideoPlayer_cases_witness :
  VideoPlayer "https://cdn.example.com/lesson.mp4"
  = Video "https://cdn.example.com/lesson.mp4"
  /\ VideoPlayer "https://youtu.be/dQw4w9WgXcQ"
     = Iframe "https://www.youtube.com/embed/dQw4w9WgXcQ"
  /\ VideoPlayer "https://www.youtube.com/shorts/abc"
     = Iframe "https://www.youtube.com/embed/".
Proof.
  split; [|split].
  - exact (proj1 (VideoPlayer_cases "https://cdn.example.com/lesson.mp4")
             eq_refl).
  - exact (proj1 (proj2 (VideoPlayer_cases "https://youtu.be/dQw4w9WgXcQ"))
             "dQw4w9WgXcQ" eq_refl (or_introl eq_refl)).
  - exact (proj2 (proj2 (VideoPlayer_cases
                           "https://www.youtube.com/shorts/abc"))
             eq_refl eq_refl eq_refl eq_refl).
Defined.
